(** * AI-Autofill local LLM adapter and installer: a shallow embedding

    The development follows the two Python scripts of the repository:

    - [src/local_llm/transformers_llm.py]: class [LocalLLM]
      ([__init__], [generate_response], [_format_prompt],
      [_clean_response]) and the command-line entry point [main];
    - [setup_local_llm.py]: [install_package] and the installer's [main].

    A Python [str] is a sequence of Unicode code points, modelled as a list
    of [N].  Calls into torch, transformers and pip are oracles gathered in
    a record; the program is written in a small state-and-exception monad
    that keeps the two output streams and the list of library calls made. *)

From Stdlib Require Import List Bool Arith NArith ZArith Lia String Ascii Floats.
Import ListNotations.

Set Implicit Arguments.
Set Warnings "-inexact-float".

(** ** Python strings *)

Module PyStr.

Definition char := N.
Definition pystr := list char.

(** A string literal of the source (plain ASCII) as code points. *)
Definition lit (s : string) : pystr :=
  map N_of_ascii (list_ascii_of_string s).

Definition nl : char := 10%N.

Fixpoint eqb (a b : pystr) : bool :=
  match a, b with
  | [], [] => true
  | x :: a', y :: b' => N.eqb x y && eqb a' b'
  | _, _ => false
  end.

(** [s.startswith(p)] *)
Fixpoint startswith (s p : pystr) {struct p} : bool :=
  match p with
  | [] => true
  | c :: p' =>
      match s with
      | [] => false
      | d :: s' => N.eqb c d && startswith s' p'
      end
  end.

(** [t in s] *)
Fixpoint contains (t s : pystr) : bool :=
  startswith s t ||
  match s with
  | [] => false
  | _ :: s' => contains t s'
  end.

(** [s.split(sep)[0]] for a non-empty separator: the text before the first
    occurrence of [sep], the whole of [s] when there is none. *)
Fixpoint split_head (sep s : pystr) : pystr :=
  if startswith s sep then []
  else match s with
       | [] => []
       | c :: s' => c :: split_head sep s'
       end.

(** [s.find(t)], [None] standing for -1. *)
Fixpoint find (t s : pystr) : option nat :=
  if startswith s t then Some 0
  else match s with
       | [] => None
       | _ :: s' => option_map S (find t s')
       end.

(** [sep.join(parts)] *)
Fixpoint join (sep : pystr) (parts : list pystr) : pystr :=
  match parts with
  | [] => []
  | [p] => p
  | p :: rest => p ++ sep ++ join sep rest
  end.

(** Code points for which [str.isspace] holds, the ones [str.strip()]
    removes (CPython's [_PyUnicode_IsWhitespace]). *)
Definition is_space (c : char) : bool :=
  ((9 <=? c) && (c <=? 13) || (28 <=? c) && (c <=? 32)
   || (c =? 133) || (c =? 160) || (c =? 5760)
   || (8192 <=? c) && (c <=? 8202)
   || (c =? 8232) || (c =? 8233) || (c =? 8239) || (c =? 8287)
   || (c =? 12288))%N.

Fixpoint lstrip (s : pystr) : pystr :=
  match s with
  | [] => []
  | c :: s' => if is_space c then lstrip s' else s
  end.

Definition rstrip (s : pystr) : pystr := rev (lstrip (rev s)).

(** [s.strip()] *)
Definition strip (s : pystr) : pystr := rstrip (lstrip s).

(** [s.lower()] on the letters A-Z.  Other code points are left as they
    are: no code point outside A-Z and a-z has c, h, a or t in its Unicode
    lower-case mapping, so the only test made on a lower-cased string in
    this program, ["chat" in name.lower()], is not affected. *)
Definition lower_char (c : char) : char :=
  if ((65 <=? c) && (c <=? 90))%N then (c + 32)%N else c.

Definition lower (s : pystr) : pystr := map lower_char s.

(** [t] occurs in [s] as a contiguous substring. *)
Definition Occurs (t s : pystr) : Prop :=
  exists a b, s = a ++ t ++ b.

Definition Prefix (p s : pystr) : Prop := exists w, s = p ++ w.

End PyStr.
Import PyStr.

(** ** The adapter's pure string functions *)

Module Adapter.

Definition default_model : pystr := lit "microsoft/DialoGPT-medium".

(** [LocalLLM._format_prompt] *)
Definition _format_prompt (model_name prompt : pystr) : pystr :=
  if contains (lit "DialoGPT") model_name then
    lit "User: " ++ prompt ++ [nl] ++ lit "Bot:"
  else if contains (lit "TinyLlama") model_name
          || contains (lit "chat") (lower model_name) then
    lit "<|user|>" ++ [nl] ++ prompt ++ [nl] ++ lit "<|assistant|>" ++ [nl]
  else
    lit "Question: " ++ prompt ++ [nl] ++ lit "Answer:".

Definition stop_tokens : list pystr :=
  [ nl :: lit "User:"; nl :: lit "Question:"; [nl; nl];
    lit "<|user|>"; lit "<|endoftext|>" ].

(** One turn of the loop over [stop_tokens]. *)
Definition stop_step (response stop_token : pystr) : pystr :=
  if contains stop_token response then split_head stop_token response
  else response.

(** [LocalLLM._clean_response] *)
Definition _clean_response (generated_text original_prompt : pystr) : pystr :=
  let response :=
    if startswith generated_text original_prompt
    then strip (skipn (List.length original_prompt) generated_text)
    else strip generated_text in
  let response := fold_left stop_step stop_tokens response in
  strip response.

End Adapter.
Import Adapter.

(** ** Post-processing as the specification words it

    Strip the echoed prompt, cut at the earliest occurrence of any marker,
    trim.  [find] gives a marker's first position, [earliest] the least of
    them. *)

Module Reference.

Definition opt_min (a b : option nat) : option nat :=
  match a, b with
  | Some x, Some y => Some (Nat.min x y)
  | Some x, None => Some x
  | None, _ => b
  end.

Definition earliest (markers : list pystr) (s : pystr) : option nat :=
  fold_right (fun t acc => opt_min (find t s) acc) None markers.

Definition truncate_earliest (markers : list pystr) (s : pystr) : pystr :=
  match earliest markers s with
  | Some i => firstn i s
  | None => s
  end.

(** Step 1 as worded: the prefix is removed when present, the text is
    trimmed only when it is not. *)
Definition clean_response_worded (generated_text prompt : pystr) : pystr :=
  let rest :=
    if startswith generated_text prompt
    then skipn (List.length prompt) generated_text
    else strip generated_text in
  strip (truncate_earliest stop_tokens rest).

(** Step 1 with the remainder trimmed in both cases. *)
Definition clean_response_trimmed (generated_text prompt : pystr) : pystr :=
  let rest :=
    if startswith generated_text prompt
    then skipn (List.length prompt) generated_text
    else generated_text in
  strip (truncate_earliest stop_tokens (strip rest)).

End Reference.

(** ** Processes: state, exceptions, exit status *)

Module Proc.

(** The exceptions the scripts tell apart.  [Exception] is anything a
    clause [except Exception] catches, carrying [str(e)]; the other two
    derive from [BaseException] only. *)
Inductive exn :=
| Exception (msg : pystr)
| KeyboardInterrupt
| SystemExit (code : Z).

Inductive outcome (A : Type) :=
| Ret (a : A)
| Raise (e : exn).
Arguments Ret {A} a.
Arguments Raise {A} e.

Definition M (S A : Type) : Type := S -> outcome A * S.

Definition ret {S A} (a : A) : M S A := fun st => (Ret a, st).

Definition bind {S A B} (m : M S A) (k : A -> M S B) : M S B :=
  fun st =>
    match m st with
    | (Ret a, st') => k a st'
    | (Raise e, st') => (Raise e, st')
    end.

Definition raise {S A} (e : exn) : M S A := fun st => (Raise e, st).

(** [sys.exit(code)] *)
Definition sys_exit {S A} (code : Z) : M S A := raise (SystemExit code).

Definition modify {S} (f : S -> S) : M S unit := fun st => (Ret tt, f st).

Definition gets {S A} (f : S -> A) : M S A := fun st => (Ret (f st), st).

(** [try: body / except Exception as e: handler(str(e))] *)
Definition try_except {S A} (body : M S A) (handler : pystr -> M S A) : M S A :=
  fun st =>
    match body st with
    | (Raise (Exception msg), st') => handler msg st'
    | r => r
    end.

(** [try: body / except KeyboardInterrupt: on_interrupt /
    except Exception as e: handler(str(e))] *)
Definition try_except2 {S A} (body : M S A) (on_interrupt : M S A)
    (handler : pystr -> M S A) : M S A :=
  fun st =>
    match body st with
    | (Raise KeyboardInterrupt, st') => on_interrupt st'
    | (Raise (Exception msg), st') => handler msg st'
    | r => r
    end.

(** Exit status of the interpreter once the script's [main] is over: 0 when
    it returns, the code of an escaping [SystemExit], 1 after the traceback
    of an uncaught exception, 130 after an uncaught interrupt. *)
Definition exit_status {A} (o : outcome A) : Z :=
  match o with
  | Ret _ => 0
  | Raise (SystemExit c) => c
  | Raise (Exception _) => 1
  | Raise KeyboardInterrupt => 130
  end.

End Proc.
Import Proc.

Notation "x <- m ;; k" := (bind m (fun x => k))
  (at level 61, m at next level, right associativity).
Notation "m ;;; k" := (bind m (fun _ => k))
  (at level 61, right associativity).

(** ** The generation adapter: [transformers_llm.py] *)

Module LLM.

Inductive device := cuda | cpu.
Inductive dtype := float16 | float32.

Definition device_str (d : device) : pystr :=
  match d with cuda => lit "cuda" | cpu => lit "cpu" end.

(** What the script reads of a tokenizer. *)
Record Tokenizer := {
  pad_token : option pystr;
  eos_token : option pystr;
  eos_token_id : option N
}.

(** Handles of the loaded model and of the text-generation pipeline. *)
Definition Model := N.
Definition Generator := N.

(** A JSON object with string members, in insertion order. *)
Definition json := list (pystr * pystr).

Fixpoint member (key : pystr) (o : json) : option pystr :=
  match o with
  | [] => None
  | (k, v) :: o' => if PyStr.eqb k key then Some v else member key o'
  end.

(** Keyword arguments of the pipeline call in [generate_response]. *)
Record GenCall := {
  text_inputs : pystr;
  max_length : Z;
  temperature : float;
  top_p : float;
  do_sample : bool;
  pad_token_id : option N;
  num_return_sequences : Z;
  truncation : bool
}.

(** The calls into torch and transformers, as one run makes them. *)
Inductive call :=
| CudaIsAvailable
| TokenizerFromPretrained (name : pystr)
| ModelFromPretrained (name : pystr) (dt : dtype) (device_map_auto : bool)
| ModelTo (m : Model) (d : device)
| Pipeline (m : Model) (device_index : Z)
| SetSeed (seed : N)
| Generate (g : Generator) (rng_state : N) (c : GenCall).

(** The third-party library.  The pipeline's sampler is a function of the
    state of the pseudo-random generators and of its arguments. *)
Record Library := {
  cuda_is_available : outcome bool;
  tokenizer_from_pretrained : pystr -> outcome Tokenizer;
  model_from_pretrained : pystr -> dtype -> bool -> outcome Model;
  model_to : Model -> device -> outcome Model;
  pipeline : Model -> Tokenizer -> Z -> outcome Generator;
  generator_call : Generator -> N -> GenCall -> outcome (list json)
}.

Record state := {
  rng : N;
  stdout : list json;
  stderr : list pystr;
  calls : list call
}.

Definition start (rng0 : N) : state :=
  {| rng := rng0; stdout := []; stderr := []; calls := [] |}.

(** [print(json.dumps(o))] *)
Definition print_json (o : json) : M state unit :=
  modify (fun st => {| rng := rng st; stdout := stdout st ++ [o];
                       stderr := stderr st; calls := calls st |}).

(** [print(line, file=sys.stderr)] *)
Definition eprint (line : pystr) : M state unit :=
  modify (fun st => {| rng := rng st; stdout := stdout st;
                       stderr := stderr st ++ [line]; calls := calls st |}).

(** A library call: noted, then its outcome. *)
Definition lib_call {A} (c : call) (r : outcome A) : M state A :=
  fun st => (r, {| rng := rng st; stdout := stdout st;
                   stderr := stderr st; calls := calls st ++ [c] |}).

(** [set_seed(seed)] *)
Definition set_seed (seed : N) : M state unit :=
  fun st => (Ret tt, {| rng := seed; stdout := stdout st;
                        stderr := stderr st;
                        calls := calls st ++ [SetSeed seed] |}).

Record LocalLLM := {
  model_name : pystr;
  llm_device : device;
  tokenizer : Tokenizer;
  model : Model;
  generator : Generator
}.

(** Parsed command line: [args.prompt], [args.model], [args.max_length],
    [args.temperature]. *)
Record Namespace := {
  prompt : pystr;
  arg_model : pystr;
  arg_max_length : Z;
  arg_temperature : float
}.

(** The command line as typed: the positional prompt and the three
    optional flags, [None] for a flag that is absent. *)
Record CommandLine := {
  cl_prompt : pystr;
  cl_model : option pystr;
  cl_max_length : option Z;
  cl_temperature : option float
}.

Definition or_default {A} (o : option A) (d : A) : A :=
  match o with Some a => a | None => d end.

(** [parser.parse_args()] with the defaults of the three [add_argument]s. *)
Definition parse_args (cl : CommandLine) : Namespace :=
  {| prompt := cl_prompt cl;
     arg_model := or_default (cl_model cl) default_model;
     arg_max_length := or_default (cl_max_length cl) 150%Z;
     arg_temperature := or_default (cl_temperature cl) 0.7%float |}.

(** ["cuda" if torch.cuda.is_available() else "cpu"] *)
Definition device_of (available : bool) : device :=
  if available then cuda else cpu.

(** [if self.tokenizer.pad_token is None:
       self.tokenizer.pad_token = self.tokenizer.eos_token] *)
Definition with_pad_token (tok : Tokenizer) : Tokenizer :=
  match pad_token tok with
  | None => {| pad_token := eos_token tok; eos_token := eos_token tok;
               eos_token_id := eos_token_id tok |}
  | Some _ => tok
  end.

(** [torch.float16 if self.device == "cuda" else torch.float32] *)
Definition torch_dtype (d : device) : dtype :=
  match d with cuda => float16 | cpu => float32 end.

(** [device_map="auto" if self.device == "cuda" else None] *)
Definition device_map_auto (d : device) : bool :=
  match d with cuda => true | cpu => false end.

(** [device=0 if self.device == "cuda" else -1] *)
Definition device_index (d : device) : Z :=
  match d with cuda => 0%Z | cpu => (-1)%Z end.

(** The keyword arguments [generate_response] hands to the pipeline. *)
Definition gen_kwargs (self : LocalLLM) (prompt : pystr) (max_length : Z)
    (temperature top_p : float) : GenCall :=
  {| text_inputs := _format_prompt (model_name self) prompt;
     max_length := max_length;
     temperature := temperature;
     top_p := top_p;
     do_sample := true;
     pad_token_id := eos_token_id (tokenizer self);
     num_return_sequences := 1;
     truncation := true |}.

Section WithLibrary.

Variable lib : Library.

(** [LocalLLM.__init__] *)
Definition __init__ (model_name : pystr) : M state LocalLLM :=
  avail <- lib_call CudaIsAvailable (cuda_is_available lib) ;;
  let dev := device_of avail in
  eprint (lit "Loading model: " ++ model_name ++ lit " on " ++ device_str dev) ;;;
  try_except
    (tok <- lib_call (TokenizerFromPretrained model_name)
                     (tokenizer_from_pretrained lib model_name) ;;
     let tok := with_pad_token tok in
     mdl <- lib_call (ModelFromPretrained model_name (torch_dtype dev)
                                          (device_map_auto dev))
                     (model_from_pretrained lib model_name (torch_dtype dev)
                                            (device_map_auto dev)) ;;
     mdl <- match dev with
            | cpu => lib_call (ModelTo mdl cpu) (model_to lib mdl cpu)
            | cuda => ret mdl
            end ;;
     gen <- lib_call (Pipeline mdl (device_index dev))
                     (pipeline lib mdl tok (device_index dev)) ;;
     eprint (lit "Model loaded successfully!") ;;;
     ret {| model_name := model_name; llm_device := dev; tokenizer := tok;
            model := mdl; generator := gen |})
    (fun e =>
       eprint (lit "Error loading model: " ++ e) ;;;
       sys_exit 1%Z).

(** [response[0]['generated_text']] *)
Definition generated_text_of (response : list json) : M state pystr :=
  match response with
  | [] => raise (Exception (lit "list index out of range"))
  | o :: _ =>
      match member (lit "generated_text") o with
      | Some t => ret t
      | None => raise (Exception (lit "'generated_text'"))
      end
  end.

(** [LocalLLM.generate_response]; an argument left out is [None] and takes
    the default of the signature. *)
Definition generate_response (self : LocalLLM) (prompt : pystr)
    (max_length : option Z) (temperature top_p : option float)
  : M state pystr :=
  let max_length := or_default max_length 150%Z in
  let temperature := or_default temperature 0.7%float in
  let top_p := or_default top_p 0.9%float in
  try_except
    (set_seed 42 ;;;
     let formatted_prompt := _format_prompt (model_name self) prompt in
     let kw := gen_kwargs self prompt max_length temperature top_p in
     seed <- gets rng ;;
     response <- lib_call (Generate (generator self) seed kw)
                          (generator_call lib (generator self) seed kw) ;;
     generated_text <- generated_text_of response ;;
     ret (_clean_response generated_text formatted_prompt))
    (fun e =>
       eprint (lit "Error generating response: " ++ e) ;;;
       ret (lit "Error: Could not generate response - " ++ e)).

(** [main], after [parse_args]. *)
Definition main (args : Namespace) : M state unit :=
  try_except2
    (llm <- __init__ (arg_model args) ;;
     response <- generate_response llm (prompt args)
                   (Some (arg_max_length args))
                   (Some (arg_temperature args)) None ;;
     print_json [ (lit "text", response);
                  (lit "model", arg_model args);
                  (lit "prompt", prompt args) ])
    (print_json [ (lit "error", lit "Process interrupted") ] ;;;
     sys_exit 1%Z)
    (fun e =>
       print_json [ (lit "error", e) ] ;;;
       sys_exit 1%Z).

(** One process: the exit status and what it left behind. *)
Definition run (cl : CommandLine) (rng0 : N) : Z * state :=
  let (o, st) := main (parse_args cl) (start rng0) in
  (exit_status o, st).

End WithLibrary.

(** The sampling calls of a run, each with the state of the pseudo-random
    generators it starts from. *)
Definition generate_calls (cs : list call) : list (N * GenCall) :=
  flat_map (fun c => match c with
                     | Generate _ seed kw => [(seed, kw)]
                     | _ => []
                     end) cs.

(** The model names handed to the two [from_pretrained] loaders. *)
Definition loaded_names (cs : list call) : list pystr :=
  flat_map (fun c => match c with
                     | TokenizerFromPretrained n => [n]
                     | ModelFromPretrained n _ _ => [n]
                     | _ => []
                     end) cs.

(** A success payload carries one of these members. *)
Definition has_payload (o : json) : bool :=
  match member (lit "text") o, member (lit "model") o,
        member (lit "prompt") o with
  | None, None, None => false
  | _, _, _ => true
  end.

(** [temperature] lies in (0, 1]. *)
Definition in_unit_interval (t : float) : bool :=
  ((0 <? t) && (t <=? 1))%float.

Inductive stage :=
| DeviceResolution
| TokenizerLoad
| ModelLoad
| PipelineConstruction.

Definition guarded (s : stage) : bool :=
  match s with DeviceResolution => false | _ => true end.

(** The first step of initialization to raise, and the text of what it
    raises: [init_raises lib name s e]. *)
Inductive init_raises (lib : Library) (name : pystr) : stage -> pystr -> Prop :=
| raises_device e :
    cuda_is_available lib = Raise (Exception e) ->
    init_raises lib name DeviceResolution e
| raises_tokenizer avail e :
    cuda_is_available lib = Ret avail ->
    tokenizer_from_pretrained lib name = Raise (Exception e) ->
    init_raises lib name TokenizerLoad e
| raises_model avail tok e :
    cuda_is_available lib = Ret avail ->
    tokenizer_from_pretrained lib name = Ret tok ->
    model_from_pretrained lib name (torch_dtype (device_of avail))
      (device_map_auto (device_of avail)) = Raise (Exception e) ->
    init_raises lib name ModelLoad e
| raises_model_to tok mdl e :
    cuda_is_available lib = Ret false ->
    tokenizer_from_pretrained lib name = Ret tok ->
    model_from_pretrained lib name float32 false = Ret mdl ->
    model_to lib mdl cpu = Raise (Exception e) ->
    init_raises lib name ModelLoad e
| raises_pipeline_cuda tok mdl e :
    cuda_is_available lib = Ret true ->
    tokenizer_from_pretrained lib name = Ret tok ->
    model_from_pretrained lib name float16 true = Ret mdl ->
    pipeline lib mdl (with_pad_token tok) 0%Z = Raise (Exception e) ->
    init_raises lib name PipelineConstruction e
| raises_pipeline_cpu tok mdl mdl' e :
    cuda_is_available lib = Ret false ->
    tokenizer_from_pretrained lib name = Ret tok ->
    model_from_pretrained lib name float32 false = Ret mdl ->
    model_to lib mdl cpu = Ret mdl' ->
    pipeline lib mdl' (with_pad_token tok) (-1)%Z = Raise (Exception e) ->
    init_raises lib name PipelineConstruction e.

End LLM.

(** ** Concrete worlds *)

Module Worlds.

Import LLM.

Definition gpt2_tokenizer : Tokenizer :=
  {| pad_token := None; eos_token := Some (lit "<|endoftext|>");
     eos_token_id := Some 50256%N |}.

(** A CPU-only host on which every load succeeds and the sampler echoes
    the prompt and answers "ok". *)
Definition lib_ok : Library :=
  {| cuda_is_available := Ret false;
     tokenizer_from_pretrained := fun _ => Ret gpt2_tokenizer;
     model_from_pretrained := fun _ _ _ => Ret 1%N;
     model_to := fun m _ => Ret m;
     pipeline := fun _ _ _ => Ret 2%N;
     generator_call := fun _ _ kw =>
       Ret [[(lit "generated_text", text_inputs kw ++ lit " ok")]] |}.

(** The same host with a sampler that raises. *)
Definition lib_gen_fails : Library :=
  {| cuda_is_available := Ret false;
     tokenizer_from_pretrained := fun _ => Ret gpt2_tokenizer;
     model_from_pretrained := fun _ _ _ => Ret 1%N;
     model_to := fun m _ => Ret m;
     pipeline := fun _ _ _ => Ret 2%N;
     generator_call := fun _ _ _ =>
       Raise (Exception (lit "index out of range in self")) |}.

(** A host on which the query for an accelerator itself raises. *)
Definition lib_no_driver : Library :=
  {| cuda_is_available := Raise (Exception (lit "CUDA driver error"));
     tokenizer_from_pretrained := fun _ => Ret gpt2_tokenizer;
     model_from_pretrained := fun _ _ _ => Ret 1%N;
     model_to := fun m _ => Ret m;
     pipeline := fun _ _ _ => Ret 2%N;
     generator_call := fun _ _ kw =>
       Ret [[(lit "generated_text", text_inputs kw ++ lit " ok")]] |}.

(** A host that does not know the model name. *)
Definition lib_unknown_model : Library :=
  {| cuda_is_available := Ret false;
     tokenizer_from_pretrained := fun _ =>
       Raise (Exception (lit "not a valid model identifier"));
     model_from_pretrained := fun _ _ _ => Ret 1%N;
     model_to := fun m _ => Ret m;
     pipeline := fun _ _ _ => Ret 2%N;
     generator_call := fun _ _ kw =>
       Ret [[(lit "generated_text", text_inputs kw ++ lit " ok")]] |}.

(** [adapter "hello"] *)
Definition cl_hello : CommandLine :=
  {| cl_prompt := lit "hello"; cl_model := None; cl_max_length := None;
     cl_temperature := None |}.

(** [adapter "hello" --temperature 2.0] *)
Definition cl_hot : CommandLine :=
  {| cl_prompt := lit "hello"; cl_model := None; cl_max_length := None;
     cl_temperature := Some 2%float |}.

End Worlds.

(** ** The installer: [setup_local_llm.py] *)

Module Setup.

(** What [subprocess.check_call] does with the pip command line: it
    returns when pip ends with status 0, raises [CalledProcessError] (with
    text [e]) when pip ends with another status, or raises something else
    ([OSError] when the interpreter cannot be started, an interrupt, ...). *)
Inductive pip_result :=
| PipOk
| PipFailed (e : pystr)
| PipRaises (x : exn).

(** The host: the interpreter's version, pip, and what the import test
    finds. *)
Record Host := {
  version_info : N * N;
  version : pystr;
  pip_install : pystr -> pip_result;
  import_versions : outcome (pystr * pystr);
  cuda_device_name : outcome (option pystr)
}.

Inductive call :=
| PipInstall (package : pystr)
| ImportTest
| CudaQuery.

Record state := {
  stdout : list pystr;
  calls : list call
}.

Definition start : state := {| stdout := []; calls := [] |}.

Definition print (line : pystr) : M state unit :=
  modify (fun st => {| stdout := stdout st ++ [line]; calls := calls st |}).

Definition host_call {A} (c : call) (r : A) : M state A :=
  fun st => (Ret r, {| stdout := stdout st; calls := calls st ++ [c] |}).

Definition host_try {A} (c : call) (r : outcome A) : M state A :=
  fun st => (r, {| stdout := stdout st; calls := calls st ++ [c] |}).

(** Code points of the pictographs the script prints. *)
Definition robot : pystr := [129302%N].
Definition check_mark : pystr := [9989%N].
Definition cross_mark : pystr := [10060%N].
Definition package_box : pystr := [128230%N].
Definition test_tube : pystr := [129514%N].
Definition rocket : pystr := [128640%N].
Definition computer : pystr := [128187%N].
Definition party : pystr := [127881%N].
Definition bullet : pystr := [8226%N].
Definition bullseye : pystr := [127919%N].

Definition packages : list pystr :=
  [ lit "torch>=2.0.0";
    lit "transformers>=4.35.0";
    lit "accelerate>=0.21.0";
    lit "sentencepiece>=0.1.99";
    lit "protobuf>=3.20.0";
    lit "safetensors>=0.3.0";
    lit "tokenizers>=0.14.0" ].

(** [sys.version_info < (3, 8)] *)
Definition version_lt_3_8 (v : N * N) : bool :=
  let (major, minor) := v in
  ((major <? 3) || (major =? 3) && (minor <? 8))%N.

Section WithHost.

Variable host : Host.

(** [install_package]: only [CalledProcessError] is caught. *)
Definition install_package (package : pystr) : M state bool :=
  r <- host_call (PipInstall package) (pip_install host package) ;;
  match r with
  | PipOk => ret true
  | PipFailed e =>
      print (lit "Failed to install " ++ package ++ lit ": " ++ e) ;;;
      ret false
  | PipRaises x => raise x
  end.

(** The loop [for package in packages] of [main], [failed_packages]
    threaded through. *)
Fixpoint install_all (pkgs failed_packages : list pystr)
  : M state (list pystr) :=
  match pkgs with
  | [] => ret failed_packages
  | package :: rest =>
      let package_name :=
        split_head (lit "==") (split_head (lit ">=") package) in
      print (package_box ++ lit " Installing " ++ package ++ lit "...") ;;;
      ok <- install_package package ;;
      if ok then
        print (lit "   " ++ check_mark ++ lit " " ++ package_name
               ++ lit " installed successfully") ;;;
        install_all rest failed_packages
      else
        print (lit "   " ++ cross_mark ++ lit " Failed to install "
               ++ package_name) ;;;
        install_all rest (failed_packages ++ [package])
  end.

(** [main] *)
Definition main : M state unit :=
  print (robot ++ lit " AI AutoFill - Local LLM Setup") ;;;
  print (lit "Setting up Hugging Face Transformers for local LLM support...") ;;;
  print (lit "This approach requires NO cmake, NO external software!") ;;;
  print (repeat 45%N 60) ;;;
  (if version_lt_3_8 (version_info host) then
     print (cross_mark ++ lit " Error: Python 3.8+ is required") ;;;
     sys_exit 1%Z
   else ret tt) ;;;
  print (check_mark ++ lit " Python " ++ version host ++ lit " detected") ;;;
  failed_packages <- install_all packages [] ;;
  (match failed_packages with
   | _ :: _ =>
       print ([nl] ++ cross_mark ++ lit " Failed to install: "
              ++ join (lit ", ") failed_packages) ;;;
       print (lit "Please check your internet connection and try again.") ;;;
       sys_exit 1%Z
   | [] => ret tt
   end) ;;;
  print ([nl] ++ test_tube ++ lit " Testing installation...") ;;;
  try_except
    (vs <- host_try ImportTest (import_versions host) ;;
     print (lit "   " ++ check_mark ++ lit " PyTorch " ++ fst vs) ;;;
     print (lit "   " ++ check_mark ++ lit " Transformers " ++ snd vs) ;;;
     dev <- host_try CudaQuery (cuda_device_name host) ;;
     match dev with
     | Some name => print (lit "   " ++ rocket ++ lit " CUDA detected: " ++ name)
     | None => print (lit "   " ++ computer ++ lit " Using CPU (CUDA not available)")
     end)
    (fun e =>
       print (lit "   " ++ cross_mark ++ lit " Installation test failed: " ++ e) ;;;
       sys_exit 1%Z) ;;;
  print ([nl] ++ party ++ lit " Local LLM setup complete!") ;;;
  print ([nl] ++ lit "Recommended models (will download automatically on first use):") ;;;
  print (lit "  " ++ bullet ++ lit " distilgpt2 (~300MB) - Fastest, basic responses") ;;;
  print (lit "  " ++ bullet ++ lit " gpt2-medium (~1.4GB) - Good balance") ;;;
  print (lit "  " ++ bullet ++ lit " microsoft/DialoGPT-medium (~1.5GB) - Best for conversations") ;;;
  print ([nl] ++ lit "Next steps:") ;;;
  print (lit "1. Start your server with: node src/main.js") ;;;
  print (lit "2. The system will automatically download models on first use") ;;;
  print (lit "3. No cmake or external software required! " ++ bullseye).

Definition run : Z * state :=
  let (o, st) := main start in (exit_status o, st).

End WithHost.

(** The packages pip was asked for, in the order of the calls. *)
Definition pip_attempts (cs : list call) : list pystr :=
  flat_map (fun c => match c with PipInstall p => [p] | _ => [] end) cs.

Definition import_attempted (cs : list call) : bool :=
  existsb (fun c => match c with ImportTest => true | _ => false end) cs.

Definition fails (host : Host) (package : pystr) : bool :=
  match pip_install host package with PipFailed _ => true | _ => false end.

(** The pip call raises something [install_package] does not catch. *)
Definition raises (host : Host) (package : pystr) : bool :=
  match pip_install host package with PipRaises _ => true | _ => false end.

(** The requirements up to and including the first one on which the pip
    call raises something else than [CalledProcessError]. *)
Fixpoint upto_raise (host : Host) (pkgs : list pystr) : list pystr :=
  match pkgs with
  | [] => []
  | p :: rest => if raises host p then [p] else p :: upto_raise host rest
  end.

(** What the first such requirement raises. *)
Fixpoint first_raise (host : Host) (pkgs : list pystr) : option exn :=
  match pkgs with
  | [] => None
  | p :: rest =>
      match pip_install host p with
      | PipRaises x => Some x
      | _ => first_raise host rest
      end
  end.

(** What the loop prints for one package. *)
Definition install_lines (host : Host) (package : pystr) : list pystr :=
  let package_name :=
    split_head (lit "==") (split_head (lit ">=") package) in
  (package_box ++ lit " Installing " ++ package ++ lit "...")
  :: match pip_install host package with
     | PipOk =>
         [lit "   " ++ check_mark ++ lit " " ++ package_name
          ++ lit " installed successfully"]
     | PipFailed e =>
         [lit "Failed to install " ++ package ++ lit ": " ++ e;
          lit "   " ++ cross_mark ++ lit " Failed to install " ++ package_name]
     | PipRaises _ => []
     end.


(** Python 3.7, everything else in order. *)
Definition host_py37 : Host :=
  {| version_info := (3, 7)%N;
     version := lit "3.7.9 (default)";
     pip_install := fun _ => PipOk;
     import_versions := Ret (lit "2.1.0", lit "4.35.0");
     cuda_device_name := Ret None |}.


End Setup.

(** ** Auxiliary definitions for the proofs *)

Module Aux.

(** Walk [s] and stop where one of [markers] starts. *)
Fixpoint scan (markers : list pystr) (s : pystr) : pystr :=
  if existsb (startswith s) markers then []
  else match s with
       | [] => []
       | c :: s' => c :: scan markers s'
       end.

(** Whenever a marker [tj] can start inside a marker [tk], at offset [n],
    the [n] characters of [tk] before it are white space. *)
Definition overlap_blank (markers : list pystr) : bool :=
  forallb (fun tk =>
    forallb (fun tj =>
      forallb (fun n =>
        match nth_error tk n, hd_error tj with
        | Some c, Some d => negb (N.eqb c d) || forallb is_space (firstn n tk)
        | _, _ => true
        end) (seq 0 (List.length tk))) markers) markers.

Definition nonempty (t : pystr) : bool :=
  match t with [] => false | _ :: _ => true end.

(** The text the loop of [_clean_response] starts from. *)
Definition echo_removed (g p : pystr) : pystr :=
  if startswith g p then strip (skipn (List.length p) g) else strip g.


Definition leading_space (s : pystr) : bool :=
  match s with [] => false | c :: _ => is_space c end.

Definition trailing_space (s : pystr) : bool := leading_space (rev s).

End Aux.
Import Aux.

(** ** Further cases of the two scripts *)

Module Cases.

Import LLM.

(** No marker occurs in [a]. *)
Definition marker_free (a : pystr) : bool :=
  forallb (fun t => negb (contains t a)) stop_tokens.

(** A marker is white space throughout or ends with a visible character. *)
Definition blank_or_closed (t : pystr) : bool :=
  forallb is_space t || negb (trailing_space t).

(** Code points of [>] and [=]. *)
Definition is_version_sign (c : char) : bool := ((c =? 62) || (c =? 61))%N.

(** [package.split(">=")[0].split("==")[0]] of the installer's loop. *)
Definition package_name (package : pystr) : pystr :=
  split_head (lit "==") (split_head (lit ">=") package).

(** The first step of initialization that does not return is interrupted
    from the keyboard. *)
Inductive init_interrupted (lib : Library) (name : pystr) : stage -> Prop :=
| interrupted_device :
    cuda_is_available lib = Raise KeyboardInterrupt ->
    init_interrupted lib name DeviceResolution
| interrupted_tokenizer avail :
    cuda_is_available lib = Ret avail ->
    tokenizer_from_pretrained lib name = Raise KeyboardInterrupt ->
    init_interrupted lib name TokenizerLoad
| interrupted_model avail tok :
    cuda_is_available lib = Ret avail ->
    tokenizer_from_pretrained lib name = Ret tok ->
    model_from_pretrained lib name (torch_dtype (device_of avail))
      (device_map_auto (device_of avail)) = Raise KeyboardInterrupt ->
    init_interrupted lib name ModelLoad
| interrupted_model_to tok mdl :
    cuda_is_available lib = Ret false ->
    tokenizer_from_pretrained lib name = Ret tok ->
    model_from_pretrained lib name float32 false = Ret mdl ->
    model_to lib mdl cpu = Raise KeyboardInterrupt ->
    init_interrupted lib name ModelLoad
| interrupted_pipeline_cuda tok mdl :
    cuda_is_available lib = Ret true ->
    tokenizer_from_pretrained lib name = Ret tok ->
    model_from_pretrained lib name float16 true = Ret mdl ->
    pipeline lib mdl (with_pad_token tok) 0%Z = Raise KeyboardInterrupt ->
    init_interrupted lib name PipelineConstruction
| interrupted_pipeline_cpu tok mdl mdl' :
    cuda_is_available lib = Ret false ->
    tokenizer_from_pretrained lib name = Ret tok ->
    model_from_pretrained lib name float32 false = Ret mdl ->
    model_to lib mdl cpu = Ret mdl' ->
    pipeline lib mdl' (with_pad_token tok) (-1)%Z = Raise KeyboardInterrupt ->
    init_interrupted lib name PipelineConstruction.

(** What a load-time call must look like on a host with or without an
    accelerator. *)
Definition placed_for (avail : bool) (c : call) : Prop :=
  match c with
  | ModelFromPretrained _ dt auto =>
      dt = (if avail then float16 else float32) /\ auto = avail
  | ModelTo _ d => avail = false /\ d = cpu
  | Pipeline _ i => i = (if avail then 0%Z else (-1)%Z)
  | _ => True
  end.

(** A host with an accelerator; the sampler answers without echo. *)
Definition lib_cuda : Library :=
  {| cuda_is_available := Ret true;
     tokenizer_from_pretrained := fun _ => Ret Worlds.gpt2_tokenizer;
     model_from_pretrained := fun _ _ _ => Ret 1%N;
     model_to := fun m _ => Ret m;
     pipeline := fun _ _ _ => Ret 2%N;
     generator_call := fun _ _ _ =>
       Ret [[(lit "generated_text", lit "fine, thanks")]] |}.

(** The download of the tokenizer is interrupted. *)
Definition lib_download_interrupted : Library :=
  {| cuda_is_available := Ret false;
     tokenizer_from_pretrained := fun _ => Raise KeyboardInterrupt;
     model_from_pretrained := fun _ _ _ => Ret 1%N;
     model_to := fun m _ => Ret m;
     pipeline := fun _ _ _ => Ret 2%N;
     generator_call := fun _ _ _ => Ret [] |}.

(** Sampling is interrupted. *)
Definition lib_sampling_interrupted : Library :=
  {| cuda_is_available := Ret false;
     tokenizer_from_pretrained := fun _ => Ret Worlds.gpt2_tokenizer;
     model_from_pretrained := fun _ _ _ => Ret 1%N;
     model_to := fun m _ => Ret m;
     pipeline := fun _ _ _ => Ret 2%N;
     generator_call := fun _ _ _ => Raise KeyboardInterrupt |}.

(** The pipeline returns an empty list. *)
Definition lib_empty_response : Library :=
  {| cuda_is_available := Ret false;
     tokenizer_from_pretrained := fun _ => Ret Worlds.gpt2_tokenizer;
     model_from_pretrained := fun _ _ _ => Ret 1%N;
     model_to := fun m _ => Ret m;
     pipeline := fun _ _ _ => Ret 2%N;
     generator_call := fun _ _ _ => Ret [] |}.

(** The pipeline returns an object without [generated_text]. *)
Definition lib_keyless_response : Library :=
  {| cuda_is_available := Ret false;
     tokenizer_from_pretrained := fun _ => Ret Worlds.gpt2_tokenizer;
     model_from_pretrained := fun _ _ _ => Ret 1%N;
     model_to := fun m _ => Ret m;
     pipeline := fun _ _ _ => Ret 2%N;
     generator_call := fun _ _ _ => Ret [[(lit "text", lit "hi")]] |}.

(** Python 3.11, pip and both imports in order, no accelerator. *)
Definition host_ok : Setup.Host :=
  {| Setup.version_info := (3, 11)%N;
     Setup.version := lit "3.11.4 (main)";
     Setup.pip_install := fun _ => Setup.PipOk;
     Setup.import_versions := Ret (lit "2.1.0", lit "4.35.0");
     Setup.cuda_device_name := Ret None |}.

(** The same host on which [import torch] fails after the installs. *)
Definition host_import_fails : Setup.Host :=
  {| Setup.version_info := (3, 11)%N;
     Setup.version := lit "3.11.4 (main)";
     Setup.pip_install := fun _ => Setup.PipOk;
     Setup.import_versions := Raise (Exception (lit "No module named 'torch'"));
     Setup.cuda_device_name := Ret None |}.

(** Python 3.11 on which pip rejects [transformers] and the interpreter
    cannot be started again for [accelerate]. *)
Definition host_pip_crashes : Setup.Host :=
  {| Setup.version_info := (3, 11)%N;
     Setup.version := lit "3.11.4 (main)";
     Setup.pip_install := fun p =>
       if PyStr.eqb p (lit "transformers>=4.35.0")
       then Setup.PipFailed (lit "Command returned non-zero exit status 1.")
       else if PyStr.eqb p (lit "accelerate>=0.21.0")
       then Setup.PipRaises (Exception (lit "[Errno 13] Permission denied"))
       else Setup.PipOk;
     Setup.import_versions := Ret (lit "2.1.0", lit "4.35.0");
     Setup.cuda_device_name := Ret None |}.

(** The lines printed before the version check. *)
Definition banner : list pystr :=
  [ Setup.robot ++ lit " AI AutoFill - Local LLM Setup";
    lit "Setting up Hugging Face Transformers for local LLM support...";
    lit "This approach requires NO cmake, NO external software!";
    repeat 45%N 60 ].

End Cases.

(** * Facts about strings *)

Lemma eqb_spec a b : PyStr.eqb a b = true <-> a = b.
Proof.
  revert b; induction a as [|x a IH]; intros [|y b]; simpl;
    try (split; [discriminate | discriminate]); try tauto.
  rewrite andb_true_iff, N.eqb_eq, IH. split.
  - intros [-> ->]; reflexivity.
  - intros H; injection H as -> ->; auto.
Qed.

Lemma startswith_spec s p : startswith s p = true <-> Prefix p s.
Proof.
  unfold Prefix. revert s; induction p as [|c p IH]; intros s; simpl.
  - split; [intros _; exists s; reflexivity | reflexivity].
  - destruct s as [|d s].
    + split; [discriminate | intros [w H]; discriminate].
    + rewrite andb_true_iff, N.eqb_eq, IH. split.
      * intros [-> [w ->]]. exists w; reflexivity.
      * intros [w H]. injection H as -> ->. split; [reflexivity | exists w; reflexivity].
Qed.

Lemma startswith_app p w : startswith (p ++ w) p = true.
Proof. apply startswith_spec. exists w; reflexivity. Qed.

Lemma contains_spec t s : contains t s = true <-> Occurs t s.
Proof.
  unfold Occurs. induction s as [|c s IH].
  - simpl. rewrite orb_false_r, startswith_spec. split.
    + intros [w H]. exists [], w. exact H.
    + intros [a [b H]]. destruct a; [exists b; exact H | discriminate].
  - cbn [contains]. rewrite orb_true_iff, startswith_spec, IH. split.
    + intros [[w H] | [a [b H]]].
      * exists [], w. exact H.
      * exists (c :: a), b. rewrite H. reflexivity.
    + intros [[|d a] [b H]].
      * left. exists b. exact H.
      * right. injection H as _ H. exists a, b. exact H.
Qed.

Lemma Occurs_app t s l r : Occurs t s -> Occurs t (l ++ s ++ r).
Proof.
  intros [a [b ->]]. exists (l ++ a), (b ++ r).
  repeat rewrite <- app_assoc. reflexivity.
Qed.

Lemma contains_prefix_false t x w :
  contains t (x ++ w) = false -> contains t x = false.
Proof.
  intros H. destruct (contains t x) eqn:E; [|reflexivity].
  apply contains_spec in E. apply (Occurs_app [] w) in E. simpl in E.
  apply contains_spec in E. congruence.
Qed.

(** ** [split] *)

Lemma split_head_absent t s : contains t s = false -> split_head t s = s.
Proof.
  induction s as [|c s IH]; cbn [contains split_head]; intros H;
    apply orb_false_iff in H; destruct H as [H1 H2]; rewrite H1.
  - reflexivity.
  - rewrite IH by exact H2. reflexivity.
Qed.

Lemma split_head_present t s :
  contains t s = true -> exists b, s = split_head t s ++ t ++ b.
Proof.
  induction s as [|c s IH]; cbn [contains split_head]; intros H.
  - rewrite orb_false_r in H. rewrite H. apply startswith_spec in H.
    destruct H as [w H]. exists w. exact H.
  - destruct (startswith (c :: s) t) eqn:E.
    + apply startswith_spec in E. destruct E as [w E]. exists w. exact E.
    + simpl in H. destruct (IH H) as [b Hb]. exists b.
      simpl. rewrite <- Hb. reflexivity.
Qed.

Lemma split_head_prefix t s : Prefix (split_head t s) s.
Proof.
  destruct (contains t s) eqn:E.
  - destruct (split_head_present _ _ E) as [b Hb]. exists (t ++ b). exact Hb.
  - rewrite split_head_absent by exact E. exists []. symmetry; apply app_nil_r.
Qed.

Lemma split_head_clean t s :
  nonempty t = true -> contains t (split_head t s) = false.
Proof.
  intros Ht. induction s as [|c s IH]; cbn [split_head].
  - destruct (startswith [] t) eqn:E; destruct t; try discriminate; reflexivity.
  - destruct (startswith (c :: s) t) eqn:E.
    + destruct t; [discriminate | reflexivity].
    + cbn [contains]. rewrite IH, orb_false_r.
      destruct (startswith (c :: split_head t s) t) eqn:E'; [|reflexivity].
      apply startswith_spec in E'. destruct E' as [w Hw].
      destruct (split_head_prefix t s) as [w' Hw'].
      assert (Prefix t (c :: s)) as HP.
      { exists (w ++ w'). rewrite app_assoc, <- Hw, Hw' at 1. reflexivity. }
      apply startswith_spec in HP. congruence.
Qed.

(** ** [strip] *)

Lemma lstrip_blank u : forallb is_space u = true -> lstrip u = [].
Proof.
  induction u as [|c u IH]; simpl; [reflexivity|].
  intros H. apply andb_true_iff in H. destruct H as [-> H]. auto.
Qed.

Lemma lstrip_app s u :
  lstrip (s ++ u) = if forallb is_space s then lstrip u else lstrip s ++ u.
Proof.
  induction s as [|c s IH]; simpl; [reflexivity|].
  destruct (is_space c); simpl; [exact IH | reflexivity].
Qed.

Lemma lstrip_suffix s : exists a, s = a ++ lstrip s.
Proof.
  induction s as [|c s [a IH]]; simpl.
  - exists []. reflexivity.
  - destruct (is_space c).
    + exists (c :: a). simpl. rewrite <- IH. reflexivity.
    + exists []. reflexivity.
Qed.

Lemma lstrip_head s : leading_space (lstrip s) = false.
Proof.
  induction s as [|c s IH]; simpl; [reflexivity|].
  destruct (is_space c) eqn:E; [exact IH | simpl; exact E].
Qed.

Lemma lstrip_fixed s : leading_space s = false -> lstrip s = s.
Proof. destruct s as [|c s]; simpl; [reflexivity | intros ->; reflexivity]. Qed.

Lemma forallb_rev (f : char -> bool) u : forallb f (rev u) = forallb f u.
Proof.
  induction u as [|c u IH]; simpl; [reflexivity|].
  rewrite forallb_app, IH. simpl. rewrite andb_true_r. apply andb_comm.
Qed.

Lemma rstrip_app_blank s u :
  forallb is_space u = true -> rstrip (s ++ u) = rstrip s.
Proof.
  intros H. unfold rstrip. rewrite rev_app_distr, lstrip_app, forallb_rev, H.
  reflexivity.
Qed.

Lemma rstrip_prefix s : Prefix (rstrip s) s.
Proof.
  unfold rstrip, Prefix. destruct (lstrip_suffix (rev s)) as [a H].
  exists (rev a). rewrite <- rev_app_distr, <- H. symmetry. apply rev_involutive.
Qed.

Lemma rstrip_last s : trailing_space (rstrip s) = false.
Proof.
  unfold trailing_space, rstrip. rewrite rev_involutive. apply lstrip_head.
Qed.

Lemma rstrip_fixed s : trailing_space s = false -> rstrip s = s.
Proof.
  unfold trailing_space, rstrip. intros H. rewrite lstrip_fixed by exact H.
  apply rev_involutive.
Qed.

Lemma strip_app_blank s u :
  forallb is_space u = true -> strip (s ++ u) = strip s.
Proof.
  intros H. unfold strip. rewrite lstrip_app.
  destruct (forallb is_space s) eqn:E.
  - rewrite (lstrip_blank _ H), (lstrip_blank _ E). reflexivity.
  - apply rstrip_app_blank. exact H.
Qed.

Lemma strip_leading s : leading_space (strip s) = false.
Proof.
  unfold strip. destruct (rstrip_prefix (lstrip s)) as [w H].
  pose proof (lstrip_head s) as L. rewrite H in L.
  destruct (rstrip (lstrip s)) as [|c r]; [reflexivity | exact L].
Qed.

Lemma strip_trailing s : trailing_space (strip s) = false.
Proof. apply rstrip_last. Qed.

Lemma strip_fixed s :
  leading_space s = false -> trailing_space s = false -> strip s = s.
Proof.
  intros L T. unfold strip. rewrite lstrip_fixed by exact L.
  apply rstrip_fixed. exact T.
Qed.

Lemma strip_inside s : exists a b, s = a ++ strip s ++ b.
Proof.
  destruct (lstrip_suffix s) as [a Ha].
  destruct (rstrip_prefix (lstrip s)) as [b Hb].
  exists a, b. unfold strip. rewrite <- Hb. exact Ha.
Qed.

Lemma strip_keeps_clean t s : contains t s = false -> contains t (strip s) = false.
Proof.
  intros H. destruct (contains t (strip s)) eqn:E; [|reflexivity].
  destruct (strip_inside s) as [a [b Hs]].
  apply contains_spec in E. apply (Occurs_app a b) in E. rewrite <- Hs in E.
  apply contains_spec in E. congruence.
Qed.

(** ** The loop over the stop tokens *)

Lemma stop_step_split r t : stop_step r t = split_head t r.
Proof.
  unfold stop_step. destruct (contains t r) eqn:E; [reflexivity|].
  symmetry. apply split_head_absent. exact E.
Qed.

Lemma Prefix_trans a b c : Prefix a b -> Prefix b c -> Prefix a c.
Proof.
  intros [u ->] [v ->]. exists (u ++ v). symmetry. apply app_assoc.
Qed.

Lemma stop_loop_prefix ts x : Prefix (fold_left stop_step ts x) x.
Proof.
  revert x; induction ts as [|t ts IH]; intros x; simpl.
  - exists []. symmetry. apply app_nil_r.
  - eapply Prefix_trans; [apply IH|]. rewrite stop_step_split.
    apply split_head_prefix.
Qed.

Lemma stop_loop_clean ts x t :
  In t ts -> nonempty t = true ->
  contains t (fold_left stop_step ts x) = false.
Proof.
  revert x; induction ts as [|t' ts IH]; intros x Hin Ht; simpl.
  - destruct Hin.
  - destruct Hin as [-> | Hin]; [|apply IH; assumption].
    destruct (stop_loop_prefix ts (stop_step x t)) as [w Hw].
    apply contains_prefix_false with (w := w). rewrite <- Hw.
    rewrite stop_step_split. apply split_head_clean. exact Ht.
Qed.

(** What is left either is the whole text or was cut in front of a token. *)
Lemma stop_loop_cut ts x :
  let y := fold_left stop_step ts x in
  y = x \/ exists t b, In t ts /\ x = y ++ t ++ b.
Proof.
  revert x; induction ts as [|t ts IH]; intros x; simpl; [left; reflexivity|].
  pose proof (IH (stop_step x t)) as H. cbv zeta in H.
  set (y := fold_left stop_step ts (stop_step x t)) in *.
  rewrite stop_step_split in H.
  destruct H as [E | [t' [b [Hin E]]]].
  - rewrite E. destruct (contains t x) eqn:C.
    + right. destruct (split_head_present _ _ C) as [b Hb].
      exists t, b. split; [left; reflexivity | exact Hb].
    + left. apply split_head_absent. exact C.
  - right. destruct (split_head_prefix t x) as [w Hw].
    exists t', (b ++ w). split; [right; exact Hin|].
    rewrite Hw at 1. rewrite E. repeat rewrite <- app_assoc. reflexivity.
Qed.

(** ** The earliest marker *)

Import Reference.

Lemma opt_min_S a b :
  opt_min (option_map S a) (option_map S b) = option_map S (opt_min a b).
Proof. destruct a, b; reflexivity. Qed.

Lemma opt_min_zero a : opt_min a (Some 0) = Some 0.
Proof. destruct a; simpl; [rewrite Nat.min_0_r|]; reflexivity. Qed.

Lemma earliest_cons ts c s :
  earliest ts (c :: s) =
  if existsb (startswith (c :: s)) ts then Some 0
  else option_map S (earliest ts s).
Proof.
  induction ts as [|t ts IH]; [reflexivity|].
  change (earliest (t :: ts) (c :: s))
    with (opt_min (find t (c :: s)) (earliest ts (c :: s))).
  change (earliest (t :: ts) s) with (opt_min (find t s) (earliest ts s)).
  rewrite IH. cbn [existsb find].
  destruct (startswith (c :: s) t); cbn [orb].
  - destruct (existsb (startswith (c :: s)) ts); [reflexivity|].
    destruct (earliest ts s); reflexivity.
  - destruct (existsb (startswith (c :: s)) ts).
    + apply opt_min_zero.
    + apply opt_min_S.
Qed.

Lemma truncate_earliest_scan ts s : truncate_earliest ts s = scan ts s.
Proof.
  unfold truncate_earliest. induction s as [|c s IH].
  - simpl. destruct (earliest ts []); [rewrite firstn_nil|];
      destruct (existsb (startswith []) ts); reflexivity.
  - rewrite earliest_cons. cbn [scan].
    destruct (existsb (startswith (c :: s)) ts); [reflexivity|].
    destruct (earliest ts s); simpl; f_equal; exact IH.
Qed.

Lemma scan_rest ts s :
  exists rest, s = scan ts s ++ rest /\
    (rest = [] \/ exists t b, In t ts /\ rest = t ++ b).
Proof.
  induction s as [|c s [rest [Hs Hr]]]; cbn [scan].
  - exists []. split; [destruct (existsb (startswith []) ts); reflexivity|].
    left; reflexivity.
  - destruct (existsb (startswith (c :: s)) ts) eqn:E.
    + exists (c :: s). split; [reflexivity|]. right.
      apply existsb_exists in E. destruct E as [t [Hin Hp]].
      apply startswith_spec in Hp. destruct Hp as [b Hb].
      exists t, b. split; assumption.
    + exists rest. split; [simpl; rewrite <- Hs; reflexivity | exact Hr].
Qed.

Lemma scan_unfold ts s :
  scan ts s = if existsb (startswith s) ts then []
              else match s with [] => [] | c :: s' => c :: scan ts s' end.
Proof. destruct s; reflexivity. Qed.

Lemma scan_before ts t a b : In t ts -> Prefix (scan ts (a ++ t ++ b)) a.
Proof.
  intros Hin. induction a as [|c a [w IH]]; cbn [scan app].
  - rewrite scan_unfold.
    assert (existsb (startswith (t ++ b)) ts = true) as ->.
    { apply existsb_exists. exists t. split; [exact Hin | apply startswith_app]. }
    exists []. reflexivity.
  - destruct (existsb (startswith (c :: a ++ t ++ b)) ts).
    + exists (c :: a). reflexivity.
    + exists w. simpl. rewrite <- IH. reflexivity.
Qed.

(** Two markers that start in the same text: the one found further on starts
    inside the other unless the other fits before it. *)
Lemma overlap_offset u tj b tk bk :
  u ++ tj ++ b = tk ++ bk -> startswith u tk = false ->
  exists n, n < List.length tk /\ u = firstn n tk /\
            (nonempty tj = true -> nth_error tk n = hd_error tj).
Proof.
  revert tk; induction u as [|a u IH]; intros tk H Hs.
  - destruct tk as [|c tk]; [discriminate|]. exists 0. simpl.
    split; [lia|]. split; [reflexivity|].
    intros Hj. destruct tj as [|d tj]; [discriminate|].
    simpl in H. injection H as -> _. reflexivity.
  - destruct tk as [|c tk]; [discriminate|].
    simpl in H. injection H as -> H. simpl in Hs. rewrite N.eqb_refl in Hs.
    destruct (IH tk H Hs) as [n [Hn [Hu Hj]]].
    exists (S n). simpl. split; [lia|]. split; [rewrite <- Hu; reflexivity | exact Hj].
Qed.

Lemma overlap_blank_use ts tk tj n c :
  overlap_blank ts = true -> In tk ts -> In tj ts ->
  n < List.length tk -> nth_error tk n = Some c -> hd_error tj = Some c ->
  forallb is_space (firstn n tk) = true.
Proof.
  unfold overlap_blank. intros H Hk Hj Hn Hc Hd.
  rewrite forallb_forall in H. specialize (H tk Hk).
  rewrite forallb_forall in H. specialize (H tj Hj).
  rewrite forallb_forall in H.
  assert (In n (seq 0 (List.length tk))) as Hin by (apply in_seq; lia).
  specialize (H n Hin). cbv beta in H. unfold pystr, char in *.
  rewrite Hc, Hd, N.eqb_refl in H. exact H.
Qed.

(** The loop and the earliest-marker cut differ by white space at the end
    at most, for markers that are not empty and meet [overlap_blank]. *)
Lemma stop_loop_earliest ts x :
  forallb nonempty ts = true -> overlap_blank ts = true ->
  exists u, fold_left stop_step ts x = truncate_earliest ts x ++ u
            /\ forallb is_space u = true.
Proof.
  intros Hne Hov. rewrite truncate_earliest_scan.
  rewrite forallb_forall in Hne.
  pose proof (stop_loop_prefix ts x) as [w Hw].
  pose proof (stop_loop_cut ts x) as Hcut. cbv zeta in Hcut.
  pose proof (fun t Hin => stop_loop_clean ts x t Hin (Hne t Hin)) as Hclean.
  set (y := fold_left stop_step ts x) in *.
  destruct (scan_rest ts x) as [rest [Hx Hrest]].
  assert (Prefix (scan ts x) y) as [u Hu].
  { destruct Hcut as [-> | [t [b [Hin Hb]]]].
    - exists rest. exact Hx.
    - rewrite Hb at 1. apply scan_before. exact Hin. }
  exists u. split; [exact Hu|].
  assert (rest = u ++ w) as Hr.
  { apply (app_inv_head (scan ts x)). rewrite <- Hx, app_assoc, <- Hu. exact Hw. }
  destruct Hrest as [-> | [tk [bk [Hk ->]]]].
  - symmetry in Hr. apply app_eq_nil in Hr. destruct Hr as [-> _]. reflexivity.
  - assert (startswith u tk = false) as Hs.
    { apply not_true_is_false. intros E. apply startswith_spec in E.
      destruct E as [v ->]. specialize (Hclean tk Hk).
      assert (contains tk y = true); [|congruence].
      apply contains_spec. exists (scan ts x), v. exact Hu. }
    destruct Hcut as [E | [tj [b [Hj Hb]]]].
    + rewrite E in Hw. rewrite <- (app_nil_r x) in Hw at 1.
      apply app_inv_head in Hw. subst w. rewrite app_nil_r in Hr. subst u.
      rewrite startswith_app in Hs. discriminate.
    + rewrite Hb in Hw. apply app_inv_head in Hw. subst w.
      symmetry in Hr.
      destruct (overlap_offset _ _ _ _ _ Hr Hs) as [n [Hn [-> Hhd]]].
      specialize (Hhd (Hne tj Hj)).
      destruct (nth_error tk n) as [c|] eqn:Hc.
      * apply (overlap_blank_use ts tk tj Hov Hk Hj Hn Hc). symmetry. exact Hhd.
      * apply nth_error_None in Hc. lia.
Qed.

Lemma stop_tokens_nonempty : forallb nonempty stop_tokens = true.
Proof. reflexivity. Qed.

Lemma stop_tokens_overlap : overlap_blank stop_tokens = true.
Proof. vm_compute. reflexivity. Qed.

(** * Prompt formatting *)

(** C1. The template is chosen by the first test that holds, in the order
    "DialoGPT" in the model name, then "TinyLlama" in the model name or
    "chat" in its lower-cased form, then the generic fallback; the three
    cases exclude one another and leave no model name out. *)
Theorem format_prompt_first_match (name p : pystr) :
  (Occurs (lit "DialoGPT") name ->
     _format_prompt name p = lit "User: " ++ p ++ [nl] ++ lit "Bot:")
  /\ (~ Occurs (lit "DialoGPT") name ->
      Occurs (lit "TinyLlama") name \/ Occurs (lit "chat") (lower name) ->
     _format_prompt name p
     = lit "<|user|>" ++ [nl] ++ p ++ [nl] ++ lit "<|assistant|>" ++ [nl])
  /\ (~ Occurs (lit "DialoGPT") name ->
      ~ Occurs (lit "TinyLlama") name ->
      ~ Occurs (lit "chat") (lower name) ->
     _format_prompt name p = lit "Question: " ++ p ++ [nl] ++ lit "Answer:").
Proof.
  unfold _format_prompt.
  destruct (contains (lit "DialoGPT") name) eqn:D;
    [apply contains_spec in D | apply not_true_iff_false in D;
                                rewrite contains_spec in D].
  - repeat split; intros; try reflexivity; contradiction.
  - destruct (contains (lit "TinyLlama") name) eqn:T;
      [apply contains_spec in T | apply not_true_iff_false in T;
                                  rewrite contains_spec in T].
    + repeat split; intros; try reflexivity; contradiction.
    + destruct (contains (lit "chat") (lower name)) eqn:C;
        [apply contains_spec in C | apply not_true_iff_false in C;
                                    rewrite contains_spec in C];
        repeat split; intros; try reflexivity; tauto.
Qed.

Example format_prompt_dialogpt :
  _format_prompt default_model (lit "Tell me a joke")
  = lit "User: Tell me a joke" ++ [nl] ++ lit "Bot:".
Proof. reflexivity. Qed.

Example format_prompt_tinyllama :
  _format_prompt (lit "TinyLlama/TinyLlama-1.1B-Chat-v1.0") (lit "Hi")
  = lit "<|user|>" ++ [nl] ++ lit "Hi" ++ [nl] ++ lit "<|assistant|>" ++ [nl].
Proof. reflexivity. Qed.

Example format_prompt_chat_any_case :
  _format_prompt (lit "org/Some-CHAT-model") (lit "Hi")
  = lit "<|user|>" ++ [nl] ++ lit "Hi" ++ [nl] ++ lit "<|assistant|>" ++ [nl].
Proof. reflexivity. Qed.

Example format_prompt_gpt2 :
  _format_prompt (lit "gpt2") (lit "Hi")
  = lit "Question: Hi" ++ [nl] ++ lit "Answer:".
Proof. reflexivity. Qed.

Lemma format_prompt_nonempty name p : nonempty (_format_prompt name p) = true.
Proof.
  unfold _format_prompt.
  destruct (contains (lit "DialoGPT") name); [reflexivity|].
  destruct (contains (lit "TinyLlama") name || contains (lit "chat") (lower name));
    reflexivity.
Qed.

(** * Post-processing *)

Lemma clean_response_unfold g p :
  _clean_response g p
  = strip (fold_left stop_step stop_tokens (echo_removed g p)).
Proof. unfold _clean_response, echo_removed. reflexivity. Qed.

Lemma clean_response_clean g p t :
  In t stop_tokens -> contains t (_clean_response g p) = false.
Proof.
  intros Hin. rewrite clean_response_unfold. apply strip_keeps_clean.
  apply stop_loop_clean; [exact Hin|].
  pose proof stop_tokens_nonempty as H. rewrite forallb_forall in H. auto.
Qed.

Lemma stop_loop_fixed ts x :
  (forall t, In t ts -> contains t x = false) -> fold_left stop_step ts x = x.
Proof.
  induction ts as [|t ts IH]; intros H; simpl; [reflexivity|].
  assert (stop_step x t = x) as ->.
  { unfold stop_step. rewrite (H t (or_introl eq_refl)). reflexivity. }
  apply IH. intros t' Hin. apply H. right. exact Hin.
Qed.

(** C2, as stated, at an answer that opens with a blank line: the code
    trims what follows the echoed prompt before it looks for markers and
    keeps the answer, the worded definition cuts at the blank line. *)
Lemma clean_response_worded_differs :
  let p := lit "Question: Hi" ++ [nl] ++ lit "Answer:" in
  let g := p ++ [nl; nl] ++ lit "I am fine" in
  _clean_response g p = lit "I am fine"
  /\ clean_response_worded g p = [].
Proof. split; vm_compute; reflexivity. Qed.

(** C2, amended.  Post-processing removes the echoed prompt when the text
    starts with it, trims the remainder in either case, cuts at the
    earliest occurrence of any marker and trims again: the loop that
    splits at each marker in turn gives the same result as the cut at the
    earliest marker.  On the example of the specification the result is
    "I am fine". *)
Theorem clean_response_earliest_marker :
  (forall g p, _clean_response g p = clean_response_trimmed g p)
  /\ _clean_response
       (lit "Question: Hi" ++ [nl] ++ lit "Answer: I am fine" ++ [nl]
        ++ lit "User: next")
       (lit "Question: Hi" ++ [nl] ++ lit "Answer:")
     = lit "I am fine".
Proof.
  split; [|vm_compute; reflexivity].
  intros g p. rewrite clean_response_unfold.
  transitivity (strip (truncate_earliest stop_tokens (echo_removed g p))).
  - destruct (stop_loop_earliest stop_tokens (echo_removed g p)
                stop_tokens_nonempty stop_tokens_overlap) as [u [-> Hu]].
    apply strip_app_blank. exact Hu.
  - unfold clean_response_trimmed, echo_removed.
    destruct (startswith g p); reflexivity.
Qed.

(** Before the last trim the two cuts can differ: the loop meets the
    marker of a new turn first and leaves the line break in front of it. *)
Example stop_loop_keeps_line_break :
  let x := lit "a" ++ [nl; nl] ++ lit "User: b" in
  fold_left stop_step stop_tokens x = lit "a" ++ [nl]
  /\ truncate_earliest stop_tokens x = lit "a".
Proof. split; vm_compute; reflexivity. Qed.

(** C9. The result of post-processing holds none of the five markers and
    neither starts nor ends with white space. *)
Theorem clean_response_no_marker (g p : pystr) :
  let out := _clean_response g p in
  (forall t, In t stop_tokens -> ~ Occurs t out)
  /\ (forall c r, out = c :: r -> is_space c = false)
  /\ (forall r c, out = r ++ [c] -> is_space c = false).
Proof.
  intros out. split; [|split].
  - intros t Hin Hocc. apply contains_spec in Hocc.
    unfold out in Hocc. rewrite clean_response_clean in Hocc by exact Hin.
    discriminate.
  - intros c r E. pose proof (strip_leading
      (fold_left stop_step stop_tokens (echo_removed g p))) as H.
    rewrite <- clean_response_unfold in H. fold out in H. rewrite E in H.
    exact H.
  - intros r c E. pose proof (strip_trailing
      (fold_left stop_step stop_tokens (echo_removed g p))) as H.
    rewrite <- clean_response_unfold in H. fold out in H. rewrite E in H.
    unfold trailing_space in H. rewrite rev_app_distr in H. exact H.
Qed.

Lemma strip_length s : List.length (strip s) <= List.length s.
Proof.
  destruct (strip_inside s) as [a [b H]]. rewrite H at 2.
  repeat rewrite length_app. lia.
Qed.

Lemma Prefix_length a b : Prefix a b -> List.length a <= List.length b.
Proof. intros [w ->]. rewrite length_app. lia. Qed.

Lemma clean_response_strict out p :
  startswith out p = true -> nonempty p = true ->
  List.length (_clean_response out p) < List.length out.
Proof.
  intros Hs Hp. rewrite clean_response_unfold. unfold echo_removed. rewrite Hs.
  apply startswith_spec in Hs. destruct Hs as [w ->].
  pose proof (strip_length (fold_left stop_step stop_tokens
                              (strip (skipn (List.length p) (p ++ w))))) as H1.
  pose proof (Prefix_length (stop_loop_prefix stop_tokens
                              (strip (skipn (List.length p) (p ++ w))))) as H2.
  pose proof (strip_length (skipn (List.length p) (p ++ w))) as H3.
  rewrite length_skipn in H3. rewrite length_app in *.
  destruct p; [discriminate|]. simpl in *. lia.
Qed.

Lemma clean_response_again g p :
  startswith (_clean_response g p) p = false ->
  _clean_response (_clean_response g p) p = _clean_response g p.
Proof.
  intros H. set (out := _clean_response g p) in *.
  assert (strip out = out) as Hfix.
  { apply strip_fixed; unfold out; rewrite clean_response_unfold;
      [apply strip_leading | apply strip_trailing]. }
  rewrite clean_response_unfold at 1. unfold echo_removed. rewrite H, Hfix.
  rewrite stop_loop_fixed; [exact Hfix|].
  intros t Hin. apply clean_response_clean. exact Hin.
Qed.

(** C3, as stated, at a generation that echoes the prompt twice: the first
    pass removes one copy, the second pass the other. *)
Lemma clean_response_not_idempotent :
  let p := _format_prompt (lit "gpt2") (lit "Hi") in
  let g := p ++ p ++ lit " yes" in
  _clean_response g p = lit "Question: Hi" ++ [nl] ++ lit "Answer: yes"
  /\ _clean_response (_clean_response g p) p = lit "yes".
Proof. split; vm_compute; reflexivity. Qed.

(** C3, amended.  For every generated text and every formatted prompt,
    post-processing its own output again with the same prompt gives that
    output back exactly when the output does not itself start with the
    formatted prompt. *)
Theorem clean_response_idempotent_iff (g name prompt : pystr) :
  let fp := _format_prompt name prompt in
  let out := _clean_response g fp in
  _clean_response out fp = out <-> startswith out fp = false.
Proof.
  intros fp out. split.
  - intros E. destruct (startswith out fp) eqn:S; [|reflexivity].
    pose proof (clean_response_strict out fp S
                  (format_prompt_nonempty name prompt)) as L.
    rewrite E in L. lia.
  - apply clean_response_again.
Qed.

(** * The adapter as a process *)

Import LLM.

(** Case analysis on what the library answers, one call after the other. *)
Ltac unfold_run :=
  cbv beta iota zeta delta
    [run main __init__ generate_response generated_text_of
     try_except try_except2 bind ret raise sys_exit modify gets
     lib_call eprint print_json set_seed start exit_status
     device_of torch_dtype device_map_auto device_index
     rng stdout stderr calls fst snd].

Ltac answer :=
  match goal with
  | |- context [cuda_is_available ?l] =>
      destruct (cuda_is_available l) as [[|]|[?| |?]] eqn:?
  | |- context [tokenizer_from_pretrained ?l ?n] =>
      destruct (tokenizer_from_pretrained l n) as [?|[?| |?]] eqn:?
  | |- context [model_from_pretrained ?l ?n ?d ?a] =>
      destruct (model_from_pretrained l n d a) as [?|[?| |?]] eqn:?
  | |- context [model_to ?l ?m ?d] =>
      destruct (model_to l m d) as [?|[?| |?]] eqn:?
  | |- context [pipeline ?l ?m ?t ?i] =>
      destruct (pipeline l m t i) as [?|[?| |?]] eqn:?
  | |- context [generator_call ?l ?g ?s ?k] =>
      destruct (generator_call l g s k) as [[|? ?]|[?| |?]] eqn:?
  | |- context [member ?k ?o] =>
      destruct (member k o) eqn:?
  end;
  unfold_run.

Ltac answers := unfold_run; repeat answer.

(** Whatever the library answers, a run samples at most once, from seed 42
    and with the arguments of [gen_kwargs]. *)
Lemma run_generate_calls lib cl rng0 :
  let st := snd (run lib cl rng0) in
  generate_calls (calls st) = []
  \/ exists llm,
       generate_calls (calls st)
       = [(42%N, gen_kwargs llm (cl_prompt cl)
                   (or_default (cl_max_length cl) 150%Z)
                   (or_default (cl_temperature cl) 0.7%float) 0.9%float)].
Proof.
  answers; cbn [generate_calls flat_map app];
    try (left; reflexivity); right; eexists; reflexivity.
Qed.

Lemma init_stdout lib name st :
  stdout (snd (__init__ lib name st)) = stdout st.
Proof. answers; reflexivity. Qed.

(** C10. Whatever the command line and whatever the library answers, each
    sampling call of the run is made with [top_p] 0.9: the command line has
    no field for it and [main] leaves the argument out. *)
Theorem run_top_p lib cl rng0 :
  Forall (fun c => top_p (snd c) = 0.9%float)
         (generate_calls (calls (snd (run lib cl rng0)))).
Proof.
  destruct (run_generate_calls lib cl rng0) as [E | [llm E]];
    cbv zeta in E; rewrite E; repeat constructor.
Qed.

(** C6, as stated, at [--temperature 2.0]: the value reaches the sampler
    as it is. *)
Lemma temperature_not_checked :
  map (fun c => temperature (snd c))
      (generate_calls (calls (snd (run Worlds.lib_ok Worlds.cl_hot 0))))
  = [2%float]
  /\ in_unit_interval 2 = false.
Proof. split; vm_compute; reflexivity. Qed.

(** C6, amended.  In every run the temperature of the generation request
    is the value given with [--temperature], 0.7 when the flag is absent;
    no range check is made on the way. *)
Theorem run_temperature lib cl rng0 :
  Forall (fun c => temperature (snd c)
                   = match cl_temperature cl with
                     | Some t => t
                     | None => 0.7%float
                     end)
         (generate_calls (calls (snd (run lib cl rng0)))).
Proof.
  destruct (run_generate_calls lib cl rng0) as [E | [llm E]];
    cbv zeta in E; rewrite E; repeat constructor.
Qed.

(** C7. Every sampling call starts from seed 42, whatever state the
    pseudo-random generators were in when the process began; two runs with
    the same command line against the same library therefore end with the
    same exit status, the same output on both streams and the same calls. *)
Theorem run_seed_fixed lib cl rng1 rng2 :
  Forall (fun c => fst c = 42%N)
         (generate_calls (calls (snd (run lib cl rng1))))
  /\ fst (run lib cl rng1) = fst (run lib cl rng2)
  /\ stdout (snd (run lib cl rng1)) = stdout (snd (run lib cl rng2))
  /\ stderr (snd (run lib cl rng1)) = stderr (snd (run lib cl rng2))
  /\ calls (snd (run lib cl rng1)) = calls (snd (run lib cl rng2)).
Proof.
  split.
  - destruct (run_generate_calls lib cl rng1) as [E | [llm E]];
      cbv zeta in E; rewrite E; repeat constructor.
  - answers; repeat split; reflexivity.
Qed.

Lemma member_head k v o : member k ((k, v) :: o) = Some v.
Proof.
  simpl. assert (PyStr.eqb k k = true) as -> by (apply eqb_spec; reflexivity).
  reflexivity.
Qed.

(** C4. When initialization has succeeded and the pipeline call raises an
    exception, the process ends with status 0; the exception is logged on
    the error stream, and the one object on standard output has a [text]
    member that holds "Error: Could not generate response". *)
Theorem generation_failure_exit_zero lib cl rng0 llm st1 e :
  __init__ lib (arg_model (parse_args cl)) (start rng0) = (Ret llm, st1) ->
  generator_call lib (generator llm) 42%N
    (gen_kwargs llm (cl_prompt cl) (arg_max_length (parse_args cl))
       (arg_temperature (parse_args cl)) 0.9%float)
  = Raise (Exception e) ->
  let r := run lib cl rng0 in
  fst r = 0%Z
  /\ stderr (snd r) = stderr st1 ++ [lit "Error generating response: " ++ e]
  /\ exists o t,
       stdout (snd r) = [o]
       /\ member (lit "text") o = Some t
       /\ member (lit "model") o = Some (arg_model (parse_args cl))
       /\ member (lit "prompt") o = Some (cl_prompt cl)
       /\ Occurs (lit "Error: Could not generate response") t.
Proof.
  intros Hinit Hgen r.
  pose proof (init_stdout lib (arg_model (parse_args cl)) (start rng0)) as Hout.
  rewrite Hinit in Hout. cbn [snd start stdout] in Hout.
  assert (r = (0%Z,
               {| rng := 42%N;
                  stdout := [[(lit "text",
                               lit "Error: Could not generate response - " ++ e);
                              (lit "model", arg_model (parse_args cl));
                              (lit "prompt", cl_prompt cl)]];
                  stderr := stderr st1 ++ [lit "Error generating response: " ++ e];
                  calls := (calls st1 ++ [SetSeed 42])
                           ++ [Generate (generator llm) 42%N
                                 (gen_kwargs llm (cl_prompt cl)
                                    (arg_max_length (parse_args cl))
                                    (arg_temperature (parse_args cl))
                                    0.9%float)] |})) as ->.
  { unfold r, run, main, try_except2, bind at 1. rewrite Hinit.
    unfold generate_response, try_except, bind, set_seed, gets, lib_call.
    cbn [rng stdout stderr calls or_default prompt parse_args] in *.
    rewrite Hgen. unfold eprint, print_json, modify, ret.
    cbn [rng stdout stderr calls exit_status]. rewrite Hout. reflexivity. }
  cbn [fst snd stdout stderr]. split; [reflexivity|]. split; [reflexivity|].
  eexists. eexists. split; [reflexivity|].
  split; [apply member_head|].
  split; [vm_compute member; reflexivity|].
  split; [vm_compute member; reflexivity|].
  exists [], (lit " - " ++ e). reflexivity.
Qed.

(** C4 on a host whose sampler raises. *)
Lemma generation_failure_exit_zero_witness :
  let r := run Worlds.lib_gen_fails Worlds.cl_hello 7 in
  fst r = 0%Z
  /\ stderr (snd r)
     = [lit "Loading model: microsoft/DialoGPT-medium on cpu";
        lit "Model loaded successfully!"]
       ++ [lit "Error generating response: index out of range in self"]
  /\ exists o t,
       stdout (snd r) = [o]
       /\ member (lit "text") o = Some t
       /\ member (lit "model") o = Some default_model
       /\ member (lit "prompt") o = Some (lit "hello")
       /\ Occurs (lit "Error: Could not generate response") t.
Proof.
  exact (generation_failure_exit_zero Worlds.lib_gen_fails Worlds.cl_hello 7
           (e := lit "index out of range in self") eq_refl eq_refl).
Defined.

(** C5, as stated, at a host whose accelerator query raises: the query is
    made before the guarded block of [__init__], so the exception reaches
    the handler of [main], which writes it to standard output; nothing goes
    to the error stream. *)
Lemma device_failure_on_stdout :
  cuda_is_available Worlds.lib_no_driver
  = Raise (Exception (lit "CUDA driver error"))
  /\ run Worlds.lib_no_driver Worlds.cl_hello 0
     = (1%Z, {| rng := 0%N;
                stdout := [[(lit "error", lit "CUDA driver error")]];
                stderr := [];
                calls := [CudaIsAvailable] |}).
Proof. split; reflexivity. Qed.

(** C5, amended.  When a step of initialization raises an exception the
    process ends with status 1 and standard output carries no [text],
    [model] or [prompt] member.  For the tokenizer load, the model load and
    the pipeline construction the error is the last line of the error
    stream and standard output is empty; for the device query the error is
    the object [{"error": e}] on standard output and the error stream is
    empty.  No call is made twice, no loader is given another model name,
    and nothing is sampled. *)
Theorem init_failure_exit_one lib cl rng0 stg e :
  init_raises lib (arg_model (parse_args cl)) stg e ->
  let r := run lib cl rng0 in
  fst r = 1%Z
  /\ existsb has_payload (stdout (snd r)) = false
  /\ (if guarded stg
      then stdout (snd r) = []
           /\ last (stderr (snd r)) [] = lit "Error loading model: " ++ e
      else stdout (snd r) = [[(lit "error", e)]]
           /\ stderr (snd r) = [])
  /\ NoDup (calls (snd r))
  /\ Forall (eq (arg_model (parse_args cl))) (loaded_names (calls (snd r)))
  /\ generate_calls (calls (snd r)) = [].
Proof.
  intros H r. unfold r. clear r.
  destruct H as [e H1 | avail e H1 H2 | avail tok e H1 H2 H3
                | tok mdl e H1 H2 H3 H4 | tok mdl e H1 H2 H3 H4
                | tok mdl mdl' e H1 H2 H3 H4 H5];
    try destruct avail;
    cbv beta iota zeta delta
      [device_of torch_dtype device_map_auto device_index] in *;
    unfold_run;
    repeat (first [rewrite H1 | rewrite H2 | rewrite H3 | rewrite H4
                  | rewrite H5]; unfold_run);
    cbn [guarded app last existsb];
    (split; [reflexivity|]);
    (split; [vm_compute; reflexivity|]);
    (split; [split; reflexivity|]);
    (split; [repeat constructor; simpl; intuition discriminate|]);
    (split; [repeat constructor | reflexivity]).
Qed.

(** C5 on a host that does not know the model name. *)
Lemma init_failure_exit_one_witness :
  let r := run Worlds.lib_unknown_model Worlds.cl_hello 0 in
  fst r = 1%Z
  /\ existsb has_payload (stdout (snd r)) = false
  /\ (stdout (snd r) = []
      /\ last (stderr (snd r)) []
         = lit "Error loading model: " ++ lit "not a valid model identifier")
  /\ NoDup (calls (snd r))
  /\ Forall (eq default_model) (loaded_names (calls (snd r)))
  /\ generate_calls (calls (snd r)) = [].
Proof.
  exact (init_failure_exit_one (lib := Worlds.lib_unknown_model)
           Worlds.cl_hello 0
           (raises_tokenizer Worlds.lib_unknown_model default_model
              (avail := false) (e := lit "not a valid model identifier")
              eq_refl eq_refl)).
Defined.

(** * The installer *)

Lemma pip_attempts_app cs cs' :
  Setup.pip_attempts (cs ++ cs') = Setup.pip_attempts cs ++ Setup.pip_attempts cs'.
Proof. unfold Setup.pip_attempts. apply flat_map_app. Qed.

Lemma pip_attempts_installs pkgs :
  Setup.pip_attempts (map Setup.PipInstall pkgs) = pkgs.
Proof. induction pkgs as [|p pkgs IH]; simpl; [|rewrite IH]; reflexivity. Qed.

(** The loop asks pip for every package in turn and returns those that
    failed, in order, whatever pip answers. *)
(** The loop, whatever pip does: it stops at the first requirement on
    which the pip call raises something [install_package] does not catch,
    and otherwise goes through the list and returns the failures. *)
Lemma install_all_outcome host pkgs failed st :
  Setup.install_all host pkgs failed st
  = (match Setup.first_raise host pkgs with
     | None => Ret (failed ++ filter (Setup.fails host) pkgs)
     | Some x => Raise x
     end,
     {| Setup.stdout :=
          Setup.stdout st
          ++ flat_map (Setup.install_lines host) (Setup.upto_raise host pkgs);
        Setup.calls :=
          Setup.calls st
          ++ map Setup.PipInstall (Setup.upto_raise host pkgs) |}).
Proof.
  revert failed st. induction pkgs as [|p pkgs IH]; intros failed st.
  - simpl. unfold ret. repeat rewrite app_nil_r. destruct st; reflexivity.
  - cbn [Setup.install_all]. unfold bind at 1. unfold Setup.print at 1.
    unfold modify. unfold bind at 1. unfold Setup.install_package.
    unfold bind at 1. unfold Setup.host_call.
    cbn [Setup.first_raise Setup.upto_raise filter].
    change (Setup.raises host p)
      with (match Setup.pip_install host p with
            | Setup.PipRaises _ => true | _ => false end).
    change (Setup.fails host p)
      with (match Setup.pip_install host p with
            | Setup.PipFailed _ => true | _ => false end).
    destruct (Setup.pip_install host p) as [|e|x] eqn:E;
      cbn [flat_map map]; unfold Setup.install_lines at 1; rewrite E.
    + unfold ret. unfold bind at 1. unfold Setup.print at 1. unfold modify.
      rewrite IH. cbn [Setup.stdout Setup.calls flat_map map app].
      repeat rewrite <- app_assoc. reflexivity.
    + unfold bind at 1. unfold Setup.print at 1. unfold modify, ret.
      unfold bind at 1. unfold Setup.print at 1. unfold modify.
      rewrite IH. cbn [Setup.stdout Setup.calls flat_map map app].
      repeat rewrite <- app_assoc. reflexivity.
    + unfold raise. cbn [Setup.stdout Setup.calls flat_map map app].
      repeat rewrite app_nil_r. reflexivity.
Qed.

Lemma no_raise host pkgs :
  existsb (Setup.raises host) pkgs = false ->
  Setup.first_raise host pkgs = None /\ Setup.upto_raise host pkgs = pkgs.
Proof.
  induction pkgs as [|p pkgs IH]; cbn [existsb Setup.first_raise Setup.upto_raise];
    [split; reflexivity|].
  intros H. apply orb_false_iff in H. destruct H as [Hp Hr].
  destruct (IH Hr) as [-> ->]. rewrite Hp. unfold Setup.raises in Hp.
  destruct (Setup.pip_install host p); try discriminate; split; reflexivity.
Qed.


(** When no pip call raises anything uncaught, the whole list is gone
    through. *)
Lemma install_all_run host pkgs failed st :
  existsb (Setup.raises host) pkgs = false ->
  Setup.install_all host pkgs failed st
  = (Ret (failed ++ filter (Setup.fails host) pkgs),
     {| Setup.stdout := Setup.stdout st
                        ++ flat_map (Setup.install_lines host) pkgs;
        Setup.calls := Setup.calls st ++ map Setup.PipInstall pkgs |}).
Proof.
  intros H. rewrite install_all_outcome.
  destruct (no_raise host pkgs H) as [-> ->]. reflexivity.
Qed.

Ltac unfold_setup :=
  cbv beta iota zeta delta
    [Setup.run Setup.main try_except bind ret raise sys_exit modify
     Setup.print Setup.host_try Setup.start exit_status
     Setup.stdout Setup.calls fst snd].




(** Where the pip call raises an [OSError] on the third requirement, after
    a failure on the second: the failure is passed over, the exception is
    not, and the run ends there with the traceback's status. *)
Example installer_stops_on_uncaught_exception :
  Setup.pip_attempts (Setup.calls (snd (Setup.run Cases.host_pip_crashes)))
  = [lit "torch>=2.0.0"; lit "transformers>=4.35.0"; lit "accelerate>=0.21.0"]
  /\ fst (Setup.run Cases.host_pip_crashes) = 1%Z
  /\ Setup.import_attempted (Setup.calls (snd (Setup.run Cases.host_pip_crashes)))
     = false.
Proof. repeat split; vm_compute; reflexivity. Qed.

(** * Further properties of the string functions *)

Import Cases.

(** X1. The formatted prompt is the raw prompt between a prefix and a
    suffix that depend on the model name only and are never empty; two
    prompts are formatted alike only when they are equal. *)
Theorem format_prompt_wraps (name : pystr) :
  exists pre suf,
    nonempty pre = true /\ nonempty suf = true
    /\ (forall p, _format_prompt name p = pre ++ p ++ suf)
    /\ (forall p q, _format_prompt name p = _format_prompt name q <-> p = q).
Proof.
  assert (forall pre suf : pystr,
            (forall p, _format_prompt name p = pre ++ p ++ suf) ->
            forall p q, _format_prompt name p = _format_prompt name q <-> p = q)
    as Inj.
  { intros pre suf H p q. split; [|intros ->; reflexivity].
    rewrite (H p), (H q). intros E. apply app_inv_head in E.
    apply app_inv_tail in E. exact E. }
  unfold _format_prompt in *.
  destruct (contains (lit "DialoGPT") name).
  - exists (lit "User: "), ([nl] ++ lit "Bot:").
    repeat split; try reflexivity; apply (Inj (lit "User: ") ([nl] ++ lit "Bot:"));
      reflexivity.
  - destruct (contains (lit "TinyLlama") name || contains (lit "chat") (lower name)).
    + exists (lit "<|user|>" ++ [nl]), ([nl] ++ lit "<|assistant|>" ++ [nl]).
      repeat split; try reflexivity;
        apply (Inj (lit "<|user|>" ++ [nl]) ([nl] ++ lit "<|assistant|>" ++ [nl]));
        reflexivity.
    + exists (lit "Question: "), ([nl] ++ lit "Answer:").
      repeat split; try reflexivity;
        apply (Inj (lit "Question: ") ([nl] ++ lit "Answer:")); reflexivity.
Qed.

Lemma skipn_echo (p x : pystr) : skipn (List.length p) (p ++ x) = x.
Proof. induction p as [|c p IH]; simpl; [reflexivity | exact IH]. Qed.

Lemma clean_response_echo p x :
  _clean_response (p ++ x) p
  = strip (fold_left stop_step stop_tokens (strip x)).
Proof.
  rewrite clean_response_unfold. unfold echo_removed.
  rewrite startswith_app, skipn_echo. reflexivity.
Qed.

Lemma Occurs_trans a b c : Occurs a b -> Occurs b c -> Occurs a c.
Proof. intros H [l [r ->]]. apply Occurs_app. exact H. Qed.

Lemma Occurs_length a b : Occurs a b -> List.length a <= List.length b.
Proof. intros [l [r ->]]. repeat rewrite length_app. lia. Qed.

(** X2. Post-processing only removes text: its result is a contiguous
    part of the generated text, and when the text starts with the prompt
    the result fits in what follows the prompt. *)
Theorem clean_response_substring (g p : pystr) :
  Occurs (_clean_response g p) g
  /\ (startswith g p = true ->
      List.length (_clean_response g p) + List.length p <= List.length g).
Proof.
  assert (forall x, Occurs (strip (fold_left stop_step stop_tokens (strip x))) x)
    as Inner.
  { intros x. apply Occurs_trans with (b := strip x); [|apply strip_inside].
    apply Occurs_trans with (b := fold_left stop_step stop_tokens (strip x));
      [apply strip_inside|].
    destruct (stop_loop_prefix stop_tokens (strip x)) as [w Hw].
    exists [], w. exact Hw. }
  split.
  - rewrite clean_response_unfold. unfold echo_removed.
    destruct (startswith g p) eqn:E; [|apply Inner].
    apply Occurs_trans with (b := skipn (List.length p) g); [apply Inner|].
    exists (firstn (List.length p) g), []. rewrite app_nil_r.
    symmetry. apply firstn_skipn.
  - intros E. apply startswith_spec in E. destruct E as [w ->].
    rewrite clean_response_echo, length_app.
    pose proof (Occurs_length (Inner w)). lia.
Qed.

Lemma forallb_blank_head v x :
  forallb is_space v = true -> nonempty v = true ->
  leading_space (v ++ x) = true.
Proof.
  destruct v as [|c v]; [discriminate|]. simpl. intros H _.
  apply andb_true_iff in H. apply H.
Qed.

Lemma leading_space_app a x :
  nonempty a = true -> leading_space (a ++ x) = leading_space a.
Proof. destruct a; [discriminate | reflexivity]. Qed.

Lemma rstrip_app s T :
  rstrip (s ++ T) = if forallb is_space T then rstrip s else s ++ rstrip T.
Proof.
  unfold rstrip. rewrite rev_app_distr, lstrip_app, forallb_rev.
  destruct (forallb is_space T); [reflexivity|].
  rewrite rev_app_distr, rev_involutive. reflexivity.
Qed.

Lemma strip_after_blank ws a T :
  forallb is_space ws = true -> nonempty a = true ->
  leading_space a = false ->
  strip (ws ++ a ++ T) = rstrip (a ++ T).
Proof.
  intros Hws Ha Hl. unfold strip. rewrite lstrip_app, Hws.
  rewrite lstrip_fixed; [reflexivity|].
  rewrite leading_space_app by exact Ha. exact Hl.
Qed.

Lemma marker_free_spec a :
  marker_free a = true -> forall t, In t stop_tokens -> contains t a = false.
Proof.
  unfold marker_free. intros H t Hin. rewrite forallb_forall in H.
  apply negb_true_iff. apply H. exact Hin.
Qed.

(** X3. An answer that holds no marker and has no white space at its ends
    comes back as it is when the model echoes the prompt, whatever white
    space separates the two or follows the answer. *)
Theorem clean_response_keeps_answer (p ws a ws' : pystr) :
  forallb is_space ws = true -> forallb is_space ws' = true ->
  leading_space a = false -> trailing_space a = false ->
  marker_free a = true ->
  _clean_response (p ++ ws ++ a ++ ws') p = a.
Proof.
  intros Hws Hws' Hl Ht Hm. rewrite clean_response_echo.
  assert (strip (ws ++ a ++ ws') = a) as ->.
  { destruct a as [|c a'] eqn:Ea.
    - simpl. unfold strip. rewrite lstrip_blank; [reflexivity|].
      rewrite forallb_app, Hws, Hws'. reflexivity.
    - rewrite strip_after_blank by (try reflexivity; assumption).
      rewrite rstrip_app_blank by exact Hws'. apply rstrip_fixed. exact Ht. }
  rewrite stop_loop_fixed by (apply marker_free_spec; exact Hm).
  apply strip_fixed; assumption.
Qed.

(** X3 on the default template. *)
Lemma clean_response_keeps_answer_witness :
  _clean_response
    (_format_prompt default_model (lit "hello") ++ lit " " ++ lit "Hi there!"
     ++ [nl])
    (_format_prompt default_model (lit "hello"))
  = lit "Hi there!".
Proof.
  exact (clean_response_keeps_answer
           (_format_prompt default_model (lit "hello")) (lit " ")
           (lit "Hi there!") [nl] eq_refl eq_refl eq_refl eq_refl eq_refl).
Defined.

(** In front of a marker, a text that holds no marker and does not end
    with white space is exactly what the walk keeps. *)
Lemma scan_at_marker ts a t r :
  overlap_blank ts = true -> forallb nonempty ts = true -> In t ts ->
  (forall m, In m ts -> contains m a = false) ->
  trailing_space a = false ->
  scan ts (a ++ t ++ r) = a.
Proof.
  intros Hov Hne Hin Hfree Htr.
  destruct (scan_before ts t a r Hin) as [w Hw].
  destruct (scan_rest ts (a ++ t ++ r)) as [rest [Hs Hrest]].
  set (S := scan ts (a ++ t ++ r)) in *.
  assert (rest = w ++ t ++ r) as Hr.
  { apply (app_inv_head S). rewrite <- Hs. rewrite Hw at 1.
    rewrite <- app_assoc. reflexivity. }
  destruct w as [|c w]; [rewrite app_nil_r in Hw; symmetry; exact Hw|].
  exfalso. rewrite forallb_forall in Hne.
  destruct Hrest as [-> | [m [b [Hm ->]]]]; [discriminate|].
  assert (startswith (c :: w) m = false) as Hsw.
  { apply not_true_is_false. intros E. apply startswith_spec in E.
    destruct E as [v Hv]. specialize (Hfree m Hm).
    assert (contains m a = true); [|congruence].
    apply contains_spec. exists S, v. rewrite Hw, Hv. reflexivity. }
  symmetry in Hr.
  destruct (overlap_offset _ _ _ _ _ Hr Hsw) as [n [Hn [Hu Hhd]]].
  specialize (Hhd (Hne t Hin)).
  destruct (nth_error m n) as [d|] eqn:Hd;
    [|apply nth_error_None in Hd; lia].
  assert (forallb is_space (c :: w) = true) as Hblank.
  { rewrite Hu. apply (overlap_blank_use ts m t Hov Hm Hin Hn Hd).
    symmetry. exact Hhd. }
  unfold trailing_space in Htr. rewrite Hw, rev_app_distr in Htr.
  rewrite forallb_blank_head in Htr; [discriminate | |].
  - rewrite forallb_rev. exact Hblank.
  - simpl. destruct (rev w); reflexivity.
Qed.

Lemma stop_tokens_blank_or_closed : forallb blank_or_closed stop_tokens = true.
Proof. vm_compute. reflexivity. Qed.

(** After trimming, an answer followed by a marker is still followed by
    that marker, unless everything behind the answer was white space. *)
Lemma rstrip_answer_marker a t junk :
  In t stop_tokens ->
  rstrip (a ++ t ++ junk) = rstrip a
  \/ exists j, rstrip (a ++ t ++ junk) = a ++ t ++ j.
Proof.
  intros Hin. rewrite rstrip_app.
  destruct (forallb is_space (t ++ junk)) eqn:B; [left; reflexivity|].
  right. rewrite rstrip_app.
  destruct (forallb is_space junk) eqn:J.
  - exists []. rewrite app_nil_r.
    pose proof stop_tokens_blank_or_closed as H. rewrite forallb_forall in H.
    specialize (H t Hin). unfold blank_or_closed in H.
    rewrite forallb_app, J, andb_true_r in B. rewrite B in H. simpl in H.
    apply negb_true_iff in H. rewrite rstrip_fixed by exact H. reflexivity.
  - exists (rstrip junk). reflexivity.
Qed.

(** X4. When the echoed prompt is followed by an answer that holds no
    marker and has no white space at its ends, then by a marker and
    anything else, post-processing returns the answer: what comes from the
    marker on is dropped. *)
Theorem clean_response_cuts_at_marker (p ws a t junk : pystr) :
  forallb is_space ws = true ->
  nonempty a = true ->
  leading_space a = false -> trailing_space a = false ->
  marker_free a = true ->
  In t stop_tokens ->
  _clean_response (p ++ ws ++ a ++ t ++ junk) p = a.
Proof.
  intros Hws Ha Hl Ht Hm Hin. rewrite clean_response_echo.
  rewrite strip_after_blank by assumption.
  destruct (rstrip_answer_marker a junk Hin) as [-> | [j ->]].
  - rewrite rstrip_fixed by exact Ht.
    rewrite stop_loop_fixed by (apply marker_free_spec; exact Hm).
    apply strip_fixed; assumption.
  - destruct (stop_loop_earliest stop_tokens (a ++ t ++ j)
                stop_tokens_nonempty stop_tokens_overlap) as [u [-> Hu]].
    rewrite truncate_earliest_scan.
    rewrite (scan_at_marker stop_tokens a t j stop_tokens_overlap
               stop_tokens_nonempty Hin (marker_free_spec a Hm) Ht).
    rewrite strip_app_blank by exact Hu. apply strip_fixed; assumption.
Qed.

(** X4 on the generic template, the model going on with a new turn. *)
Lemma clean_response_cuts_at_marker_witness :
  _clean_response
    (_format_prompt (lit "gpt2") (lit "Hi") ++ lit " " ++ lit "I am fine"
     ++ (nl :: lit "Question:") ++ lit " And you?")
    (_format_prompt (lit "gpt2") (lit "Hi"))
  = lit "I am fine".
Proof.
  exact (@clean_response_cuts_at_marker
           (_format_prompt (lit "gpt2") (lit "Hi")) (lit " ")
           (lit "I am fine") (nl :: lit "Question:") (lit " And you?")
           eq_refl eq_refl eq_refl eq_refl eq_refl
           (or_intror (or_introl eq_refl))).
Defined.

(** ** Package names *)

Lemma split_head_skip sep a x c rest :
  sep = c :: rest -> existsb (N.eqb c) a = false ->
  split_head sep (a ++ x) = a ++ split_head sep x.
Proof.
  intros -> H. induction a as [|d a IH]; [reflexivity|].
  simpl in H. apply orb_false_iff in H. destruct H as [Hd Ha].
  cbn [app split_head startswith]. rewrite Hd. cbn [andb].
  rewrite IH by exact Ha. reflexivity.
Qed.

Lemma split_head_at_sep sep x : split_head sep (sep ++ x) = [].
Proof.
  destruct (sep ++ x) eqn:E; simpl.
  - destruct (startswith [] sep); reflexivity.
  - rewrite <- E, startswith_app. reflexivity.
Qed.

Lemma no_sign_split name :
  existsb is_version_sign name = false ->
  existsb (N.eqb 62) name = false /\ existsb (N.eqb 61) name = false.
Proof.
  induction name as [|c name IH]; cbn [existsb]; [split; reflexivity|].
  intros H. apply orb_false_iff in H. destruct H as [Hc Hn].
  unfold is_version_sign in Hc. apply orb_false_iff in Hc.
  destruct Hc as [H1 H2]. destruct (IH Hn) as [I1 I2].
  rewrite (N.eqb_sym 62 c), (N.eqb_sym 61 c), H1, H2, I1, I2.
  split; reflexivity.
Qed.

(** X5. From a requirement [name>=version] or [name==version] whose name
    holds neither [>] nor [=], the installer's loop derives exactly the
    name, whatever the version is. *)
Theorem package_name_recovered (name ver : pystr) :
  existsb is_version_sign name = false ->
  package_name (name ++ lit ">=" ++ ver) = name
  /\ package_name (name ++ lit "==" ++ ver) = name.
Proof.
  intros H. destruct (no_sign_split name H) as [Hgt Heq].
  assert (forall x, split_head (lit ">=") (name ++ x)
                    = name ++ split_head (lit ">=") x) as Sge.
  { intros x. exact (split_head_skip name x (c := 62%N) (rest := [61%N])
                       eq_refl Hgt). }
  assert (forall x, split_head (lit "==") (name ++ x)
                    = name ++ split_head (lit "==") x) as Seq.
  { intros x. exact (split_head_skip name x (c := 61%N) (rest := [61%N])
                       eq_refl Heq). }
  unfold package_name. split.
  - etransitivity; [exact (f_equal (split_head (lit "==")) (Sge _))|].
    etransitivity;
      [exact (f_equal (fun z => split_head (lit "==") (name ++ z))
                (split_head_at_sep (lit ">=") ver))|].
    etransitivity; [exact (Seq [])|]. apply app_nil_r.
  - etransitivity; [exact (f_equal (split_head (lit "==")) (Sge _))|].
    etransitivity; [exact (Seq _)|].
    etransitivity;
      [exact (f_equal (app name)
                (split_head_at_sep (lit "==") (split_head (lit ">=") ver)))|].
    apply app_nil_r.
Qed.

(** X5 on the first entry of the list and on a pinned requirement. *)
Lemma package_name_recovered_witness :
  package_name (lit "torch" ++ lit ">=" ++ lit "2.0.0") = lit "torch"
  /\ package_name (lit "torch" ++ lit "==" ++ lit "2.0.0") = lit "torch".
Proof.
  exact (package_name_recovered (lit "torch") (lit "2.0.0") eq_refl).
Defined.

(** * Further properties of the adapter *)

Ltac after_init Hinit :=
  match goal with
  | |- context [run ?l ?c ?r0] =>
      let R := fresh "R" in
      let ER := fresh "ER" in
      remember (run l c r0) as R eqn:ER; revert ER
  end;
  unfold run, main, try_except2, bind at 1; rewrite Hinit;
  unfold generate_response, try_except, bind, set_seed, gets, lib_call;
  cbn [rng stdout stderr calls or_default prompt parse_args] in *.

Ltac finish_run :=
  unfold generated_text_of, eprint, print_json, modify, ret, raise, sys_exit;
  cbn [rng stdout stderr calls exit_status fst snd].

Lemma init_model_name lib name st llm st' :
  __init__ lib name st = (Ret llm, st') -> model_name llm = name.
Proof.
  unfold_run. repeat answer; intros E; inversion E; reflexivity.
Qed.

Lemma init_empty_stdout lib name rng0 llm st1 :
  __init__ lib name (start rng0) = (Ret llm, st1) -> stdout st1 = [].
Proof.
  intros H. pose proof (init_stdout lib name (start rng0)) as E.
  rewrite H in E. exact E.
Qed.

(** X6. When initialization has succeeded and the pipeline returns a list
    whose first object has a [generated_text] member, the process ends
    with status 0, logs nothing more, and prints one object: [text] is the
    post-processed generated text, [model] and [prompt] are the model name
    and the raw prompt of the command line.  Further objects of the list
    are not looked at. *)
Theorem generation_success lib cl rng0 llm st1 o rest t :
  __init__ lib (arg_model (parse_args cl)) (start rng0) = (Ret llm, st1) ->
  generator_call lib (generator llm) 42%N
    (gen_kwargs llm (cl_prompt cl) (arg_max_length (parse_args cl))
       (arg_temperature (parse_args cl)) 0.9%float)
  = Ret (o :: rest) ->
  member (lit "generated_text") o = Some t ->
  let r := run lib cl rng0 in
  fst r = 0%Z
  /\ stdout (snd r)
     = [[(lit "text",
          _clean_response t
            (_format_prompt (arg_model (parse_args cl)) (cl_prompt cl)));
         (lit "model", arg_model (parse_args cl));
         (lit "prompt", cl_prompt cl)]]
  /\ stderr (snd r) = stderr st1.
Proof.
  intros Hinit Hgen Ht r. unfold r. clear r.
  pose proof (init_empty_stdout _ _ _ Hinit) as Hout.
  pose proof (init_model_name _ _ _ Hinit) as Hname.
  after_init Hinit. rewrite Hgen. finish_run. rewrite Ht. finish_run.
  intros ->. cbn [fst snd stdout stderr]. rewrite Hout, Hname. repeat split.
Qed.

(** X6 on a host where every step succeeds and the sampler echoes the
    prompt. *)
Lemma generation_success_witness :
  let r := run Worlds.lib_ok Worlds.cl_hello 7 in
  fst r = 0%Z
  /\ stdout (snd r)
     = [[(lit "text", lit "ok");
         (lit "model", default_model);
         (lit "prompt", lit "hello")]]
  /\ stderr (snd r)
     = [lit "Loading model: microsoft/DialoGPT-medium on cpu";
        lit "Model loaded successfully!"].
Proof.
  exact (@generation_success Worlds.lib_ok Worlds.cl_hello 7 _ _ _ [] _
           eq_refl eq_refl eq_refl).
Defined.

(** X7. A pipeline result that is an empty list, or whose first object
    has no [generated_text] member, does not end the process with a
    failure: the lookup error is caught like a failed generation, so the
    status is 0 and [text] is the error message with the text of the
    [IndexError] or [KeyError]. *)
Theorem malformed_response_reported lib cl rng0 llm st1 resp msg :
  __init__ lib (arg_model (parse_args cl)) (start rng0) = (Ret llm, st1) ->
  generator_call lib (generator llm) 42%N
    (gen_kwargs llm (cl_prompt cl) (arg_max_length (parse_args cl))
       (arg_temperature (parse_args cl)) 0.9%float)
  = Ret resp ->
  (resp = [] /\ msg = lit "list index out of range")
  \/ (exists o rest, resp = o :: rest
                     /\ member (lit "generated_text") o = None
                     /\ msg = lit "'generated_text'") ->
  let r := run lib cl rng0 in
  fst r = 0%Z
  /\ stdout (snd r)
     = [[(lit "text", lit "Error: Could not generate response - " ++ msg);
         (lit "model", arg_model (parse_args cl));
         (lit "prompt", cl_prompt cl)]]
  /\ stderr (snd r) = stderr st1 ++ [lit "Error generating response: " ++ msg].
Proof.
  intros Hinit Hgen Hbad r. unfold r. clear r.
  pose proof (init_empty_stdout _ _ _ Hinit) as Hout.
  after_init Hinit. rewrite Hgen.
  destruct Hbad as [[-> ->] | [o [rest [-> [Hm ->]]]]]; finish_run;
    try rewrite Hm; finish_run; intros ->; cbn [fst snd stdout stderr];
    rewrite Hout; repeat split.
Qed.

(** X7 on an empty result and on an object without the member. *)
Lemma malformed_response_reported_witness :
  stdout (snd (run lib_empty_response Worlds.cl_hello 0))
  = [[(lit "text",
       lit "Error: Could not generate response - list index out of range");
      (lit "model", default_model);
      (lit "prompt", lit "hello")]]
  /\ stdout (snd (run lib_keyless_response Worlds.cl_hello 0))
     = [[(lit "text",
          lit "Error: Could not generate response - 'generated_text'");
         (lit "model", default_model);
         (lit "prompt", lit "hello")]].
Proof.
  split.
  - exact (proj1 (proj2
      (@malformed_response_reported lib_empty_response Worlds.cl_hello 0
         _ _ [] (lit "list index out of range") eq_refl eq_refl
         (or_introl (conj eq_refl eq_refl))))).
  - exact (proj1 (proj2
      (@malformed_response_reported lib_keyless_response Worlds.cl_hello 0
         _ _ [[(lit "text", lit "hi")]] (lit "'generated_text'")
         eq_refl eq_refl
         (or_intror (ex_intro _ _ (ex_intro _ []
            (conj eq_refl (conj eq_refl eq_refl)))))))).
Defined.

(** X8. An interrupt from the keyboard during sampling is not taken for a
    failed generation: it passes the handler of [generate_response], and
    [main] prints [{"error": "Process interrupted"}] and ends with
    status 1; nothing is logged. *)
Theorem sampling_interrupt_exit_one lib cl rng0 llm st1 :
  __init__ lib (arg_model (parse_args cl)) (start rng0) = (Ret llm, st1) ->
  generator_call lib (generator llm) 42%N
    (gen_kwargs llm (cl_prompt cl) (arg_max_length (parse_args cl))
       (arg_temperature (parse_args cl)) 0.9%float)
  = Raise KeyboardInterrupt ->
  let r := run lib cl rng0 in
  fst r = 1%Z
  /\ stdout (snd r) = [[(lit "error", lit "Process interrupted")]]
  /\ stderr (snd r) = stderr st1.
Proof.
  intros Hinit Hgen r. unfold r. clear r.
  pose proof (init_empty_stdout _ _ _ Hinit) as Hout.
  after_init Hinit. rewrite Hgen. finish_run.
  intros ->. cbn [fst snd stdout stderr]. rewrite Hout. repeat split.
Qed.

(** X8 on a host where sampling is interrupted. *)
Lemma sampling_interrupt_exit_one_witness :
  let r := run lib_sampling_interrupted Worlds.cl_hello 0 in
  fst r = 1%Z
  /\ stdout (snd r) = [[(lit "error", lit "Process interrupted")]]
  /\ stderr (snd r)
     = [lit "Loading model: microsoft/DialoGPT-medium on cpu";
        lit "Model loaded successfully!"].
Proof.
  exact (@sampling_interrupt_exit_one lib_sampling_interrupted
           Worlds.cl_hello 0 _ _ eq_refl eq_refl).
Defined.

(** X9. An interrupt from the keyboard during a step of initialization is
    not reported as a load error: [main] prints
    [{"error": "Process interrupted"}] and ends with status 1; the error
    stream holds the "Loading model" line at most (not even that when the
    device query is interrupted), and nothing is sampled. *)
Theorem init_interrupt_exit_one lib cl rng0 stg :
  init_interrupted lib (arg_model (parse_args cl)) stg ->
  let r := run lib cl rng0 in
  fst r = 1%Z
  /\ stdout (snd r) = [[(lit "error", lit "Process interrupted")]]
  /\ (if guarded stg
      then exists dev,
             stderr (snd r)
             = [lit "Loading model: " ++ arg_model (parse_args cl)
                ++ lit " on " ++ device_str dev]
      else stderr (snd r) = [])
  /\ generate_calls (calls (snd r)) = [].
Proof.
  intros H r. unfold r. clear r.
  destruct H as [H1 | avail H1 H2 | avail tok H1 H2 H3
                | tok mdl H1 H2 H3 H4 | tok mdl H1 H2 H3 H4
                | tok mdl mdl' H1 H2 H3 H4 H5];
    try destruct avail;
    cbv beta iota zeta delta
      [device_of torch_dtype device_map_auto device_index] in *;
    unfold_run;
    repeat (first [rewrite H1 | rewrite H2 | rewrite H3 | rewrite H4
                  | rewrite H5]; unfold_run);
    cbn [guarded app];
    (split; [reflexivity|]);
    (split; [reflexivity|]);
    (split; [try reflexivity; first [exists cuda; reflexivity
                                    | exists cpu; reflexivity]
            | reflexivity]).
Qed.

(** X9 on a host where the download of the tokenizer is interrupted. *)
Lemma init_interrupt_exit_one_witness :
  let r := run lib_download_interrupted Worlds.cl_hello 0 in
  fst r = 1%Z
  /\ stdout (snd r) = [[(lit "error", lit "Process interrupted")]]
  /\ (exists dev,
        stderr (snd r)
        = [lit "Loading model: " ++ default_model ++ lit " on "
           ++ device_str dev])
  /\ generate_calls (calls (snd r)) = [].
Proof.
  exact (@init_interrupt_exit_one lib_download_interrupted Worlds.cl_hello 0
           TokenizerLoad
           (interrupted_tokenizer lib_download_interrupted default_model
              (avail := false) eq_refl eq_refl)).
Defined.


(** X11. Whatever the library answers, a run makes no library call twice,
    hands no model name but the requested one to the loaders, and samples
    at most once. *)
Theorem run_calls_once lib cl rng0 :
  let r := run lib cl rng0 in
  NoDup (calls (snd r))
  /\ Forall (eq (arg_model (parse_args cl))) (loaded_names (calls (snd r)))
  /\ List.length (generate_calls (calls (snd r))) <= 1.
Proof.
  answers; cbn [app loaded_names generate_calls flat_map List.length];
    (split; [repeat constructor; simpl; intuition discriminate|]);
    (split; [repeat constructor | lia]).
Qed.

(** X12. The load follows the device.  With an accelerator the model is
    loaded in 16-bit floats with automatic placement and the next call
    builds the pipeline on it, on device 0: it is not moved.  Without one
    the model is loaded in 32-bit floats without placement, the next call
    moves it to the CPU, and the pipeline is built on the moved model, on
    device -1.  No call of a run departs from the placement of its
    device. *)
Theorem run_placement lib cl rng0 avail :
  cuda_is_available lib = Ret avail ->
  let name := arg_model (parse_args cl) in
  let cs := calls (snd (run lib cl rng0)) in
  Forall (placed_for avail) cs
  /\ (forall tok mdl,
        tokenizer_from_pretrained lib name = Ret tok ->
        model_from_pretrained lib name (torch_dtype (device_of avail))
          (device_map_auto (device_of avail)) = Ret mdl ->
        if avail
        then exists rest,
               cs = [ CudaIsAvailable;
                      TokenizerFromPretrained name;
                      ModelFromPretrained name float16 true;
                      Pipeline mdl 0%Z ] ++ rest
        else exists rest,
               cs = [ CudaIsAvailable;
                      TokenizerFromPretrained name;
                      ModelFromPretrained name float32 false;
                      ModelTo mdl cpu ] ++ rest
               /\ forall mdl',
                    model_to lib mdl cpu = Ret mdl' ->
                    exists rest', rest = Pipeline mdl' (-1)%Z :: rest').
Proof.
  intros H name cs. unfold cs, name. clear cs name. split.
  - destruct avail; unfold_run; rewrite H; unfold_run;
      repeat answer; cbn [app]; repeat constructor.
  - intros tok mdl Ht Hm. destruct avail;
      cbv beta iota zeta delta
        [device_of torch_dtype device_map_auto] in Hm;
      unfold_run; rewrite H; unfold_run; rewrite Ht; unfold_run;
      rewrite Hm; unfold_run.
    + repeat answer; cbn [app]; eexists; reflexivity.
    + repeat answer; cbn [app]; eexists;
        (split; [reflexivity|]); intros mdl' E;
        first [discriminate | inversion E; subst; eexists; reflexivity].
Qed.

(** X12 on a host with an accelerator and on a host without. *)
Lemma run_placement_witness :
  (Forall (placed_for true) (calls (snd (run lib_cuda Worlds.cl_hello 0)))
   /\ exists rest,
        calls (snd (run lib_cuda Worlds.cl_hello 0))
        = [ CudaIsAvailable;
            TokenizerFromPretrained default_model;
            ModelFromPretrained default_model float16 true;
            Pipeline 1%N 0%Z ] ++ rest)
  /\ (Forall (placed_for false)
             (calls (snd (run Worlds.lib_ok Worlds.cl_hello 0)))
      /\ exists rest,
           calls (snd (run Worlds.lib_ok Worlds.cl_hello 0))
           = [ CudaIsAvailable;
               TokenizerFromPretrained default_model;
               ModelFromPretrained default_model float32 false;
               ModelTo 1%N cpu ] ++ rest
           /\ forall mdl',
                Ret 1%N = Ret mdl' ->
                exists rest', rest = Pipeline mdl' (-1)%Z :: rest').
Proof.
  split.
  - destruct (@run_placement lib_cuda Worlds.cl_hello 0 true eq_refl)
      as [A B].
    split; [exact A|]. exact (B Worlds.gpt2_tokenizer 1%N eq_refl eq_refl).
  - destruct (@run_placement Worlds.lib_ok Worlds.cl_hello 0 false eq_refl)
      as [A B].
    split; [exact A|]. exact (B Worlds.gpt2_tokenizer 1%N eq_refl eq_refl).
Defined.

Lemma eos_id_with_pad tok :
  eos_token_id (with_pad_token tok) = eos_token_id tok.
Proof. unfold with_pad_token. destruct (pad_token tok); reflexivity. Qed.

(** X13. Every sampling call is made on the formatted prompt of the
    requested model and the raw prompt, with the length limit of the
    command line (150 when the flag is absent), sampling switched on, one
    returned sequence, truncation, and the end-of-sequence id of the loaded
    tokenizer as padding id, whether or not that tokenizer came with a
    padding token of its own. *)
Theorem run_generation_arguments lib cl rng0 tok :
  tokenizer_from_pretrained lib (arg_model (parse_args cl)) = Ret tok ->
  Forall (fun c =>
            snd c
            = {| text_inputs :=
                   _format_prompt (arg_model (parse_args cl)) (cl_prompt cl);
                 max_length := match cl_max_length cl with
                               | Some n => n
                               | None => 150%Z
                               end;
                 temperature := arg_temperature (parse_args cl);
                 top_p := 0.9%float;
                 do_sample := true;
                 pad_token_id := eos_token_id tok;
                 num_return_sequences := 1%Z;
                 truncation := true |})
         (generate_calls (calls (snd (run lib cl rng0)))).
Proof.
  intros H. unfold_run. rewrite H. unfold_run. repeat answer;
    cbn [app generate_calls flat_map]; repeat constructor;
    unfold gen_kwargs; cbn [snd model_name tokenizer or_default parse_args
                            prompt arg_max_length arg_temperature];
    rewrite eos_id_with_pad; reflexivity.
Qed.

(** X13 on a tokenizer that has no padding token. *)
Lemma run_generation_arguments_witness :
  Forall (fun c =>
            snd c
            = {| text_inputs := lit "User: hello" ++ [nl] ++ lit "Bot:";
                 max_length := 150%Z;
                 temperature := 0.7%float;
                 top_p := 0.9%float;
                 do_sample := true;
                 pad_token_id := Some 50256%N;
                 num_return_sequences := 1%Z;
                 truncation := true |})
         (generate_calls (calls (snd (run Worlds.lib_ok Worlds.cl_hello 0)))).
Proof.
  exact (@run_generation_arguments Worlds.lib_ok Worlds.cl_hello 0
           Worlds.gpt2_tokenizer eq_refl).
Defined.

(** * Further properties of the installer *)

(** X14. Under an interpreter older than Python 3.8 the installer prints
    its banner and the version error and ends with status 1; pip is not
    called and no import is tried. *)
Theorem installer_old_python host :
  Setup.version_lt_3_8 (Setup.version_info host) = true ->
  Setup.run host
  = (1%Z,
     {| Setup.stdout :=
          banner ++ [Setup.cross_mark ++ lit " Error: Python 3.8+ is required"];
        Setup.calls := [] |}).
Proof. intros H. unfold_setup. rewrite H. reflexivity. Qed.

(** X14 under Python 3.7. *)
Lemma installer_old_python_witness :
  Setup.run Setup.host_py37
  = (1%Z,
     {| Setup.stdout :=
          banner ++ [Setup.cross_mark ++ lit " Error: Python 3.8+ is required"];
        Setup.calls := [] |}).
Proof. exact (installer_old_python Setup.host_py37 eq_refl). Defined.

(** X15. When the version check passes, every pip call returns (none
    fails, none raises) and both imports and the accelerator query succeed,
    the installer ends with status 0: it has asked pip for the seven packages in order, then run
    the import test and the accelerator query once each, printed the two
    versions and closed with its last "Next steps" line. *)
Theorem installer_success host vs dev :
  Setup.version_lt_3_8 (Setup.version_info host) = false ->
  existsb (Setup.raises host) Setup.packages = false ->
  filter (Setup.fails host) Setup.packages = [] ->
  Setup.import_versions host = Ret vs ->
  Setup.cuda_device_name host = Ret dev ->
  let r := Setup.run host in
  fst r = 0%Z
  /\ Setup.calls (snd r)
     = map Setup.PipInstall Setup.packages
       ++ [Setup.ImportTest; Setup.CudaQuery]
  /\ In (lit "   " ++ Setup.check_mark ++ lit " PyTorch " ++ fst vs)
        (Setup.stdout (snd r))
  /\ In (lit "   " ++ Setup.check_mark ++ lit " Transformers " ++ snd vs)
        (Setup.stdout (snd r))
  /\ last (Setup.stdout (snd r)) []
     = lit "3. No cmake or external software required! " ++ Setup.bullseye.
Proof.
  intros Hv Hr Hf Hi Hc r. unfold r. clear r. unfold_setup. rewrite Hv.
  rewrite install_all_run by exact Hr.
  cbn [Setup.stdout Setup.calls app]. rewrite Hf.
  rewrite Hi. cbn [Setup.stdout Setup.calls fst snd]. rewrite Hc.
  destruct dev; cbn [Setup.stdout Setup.calls fst snd];
    (split; [reflexivity|]);
    (split; [rewrite <- app_assoc; reflexivity|]);
    repeat rewrite last_last;
    (split; [repeat rewrite in_app_iff; simpl; tauto|]);
    (split; [repeat rewrite in_app_iff; simpl; tauto | reflexivity]).
Qed.

(** X15 on a host without accelerator. *)
Lemma installer_success_witness :
  let r := Setup.run host_ok in
  fst r = 0%Z
  /\ Setup.calls (snd r)
     = map Setup.PipInstall Setup.packages
       ++ [Setup.ImportTest; Setup.CudaQuery]
  /\ In (lit "   " ++ Setup.check_mark ++ lit " PyTorch " ++ lit "2.1.0")
        (Setup.stdout (snd r))
  /\ In (lit "   " ++ Setup.check_mark ++ lit " Transformers " ++ lit "4.35.0")
        (Setup.stdout (snd r))
  /\ last (Setup.stdout (snd r)) []
     = lit "3. No cmake or external software required! " ++ Setup.bullseye.
Proof.
  exact (@installer_success host_ok (lit "2.1.0", lit "4.35.0") None
           eq_refl eq_refl eq_refl eq_refl eq_refl).
Defined.

(** X16. When every pip call has returned with success but the import test raises
    an exception, the installer prints the failure with the text of the
    exception as its last line and ends with status 1; the accelerator is
    not queried and the closing summary is not printed. *)
Theorem installer_import_failure host e :
  Setup.version_lt_3_8 (Setup.version_info host) = false ->
  existsb (Setup.raises host) Setup.packages = false ->
  filter (Setup.fails host) Setup.packages = [] ->
  Setup.import_versions host = Raise (Exception e) ->
  let r := Setup.run host in
  fst r = 1%Z
  /\ Setup.calls (snd r)
     = map Setup.PipInstall Setup.packages ++ [Setup.ImportTest]
  /\ last (Setup.stdout (snd r)) []
     = lit "   " ++ Setup.cross_mark ++ lit " Installation test failed: " ++ e.
Proof.
  intros Hv Hr Hf Hi r. unfold r. clear r. unfold_setup. rewrite Hv.
  rewrite install_all_run by exact Hr.
  cbn [Setup.stdout Setup.calls app]. rewrite Hf.
  rewrite Hi. cbn [Setup.stdout Setup.calls fst snd].
  split; [reflexivity|]. split; [reflexivity|]. apply last_last.
Qed.

(** X16 on a host where [import torch] fails. *)
Lemma installer_import_failure_witness :
  let r := Setup.run host_import_fails in
  fst r = 1%Z
  /\ Setup.calls (snd r)
     = map Setup.PipInstall Setup.packages ++ [Setup.ImportTest]
  /\ last (Setup.stdout (snd r)) []
     = lit "   " ++ Setup.cross_mark ++ lit " Installation test failed: "
       ++ lit "No module named 'torch'".
Proof.
  exact (@installer_import_failure host_import_fails
           (lit "No module named 'torch'") eq_refl eq_refl eq_refl eq_refl).
Defined.

(** X17. In the installer's loop a failure that pip reports is passed
    over, an exception of another kind from the pip call is not: for any
    list of requirements and any failures collected so far, pip is asked
    for each requirement in order up to the first one on which the call
    raises such an exception; the loop then ends with that exception, the
    announcement of that requirement being the last line printed, and the
    later requirements are not attempted.  When there is none, the loop
    returns the earlier failures followed by the requirements pip
    rejected, in list order. *)
Theorem install_all_collects host pkgs failed st :
  let res := Setup.install_all host pkgs failed st in
  Setup.pip_attempts (Setup.calls (snd res))
  = Setup.pip_attempts (Setup.calls st) ++ Setup.upto_raise host pkgs
  /\ (existsb (Setup.raises host) pkgs = false ->
      fst res = Ret (failed ++ filter (Setup.fails host) pkgs)
      /\ Setup.upto_raise host pkgs = pkgs)
  /\ (forall pre p post x,
        pkgs = pre ++ p :: post ->
        existsb (Setup.raises host) pre = false ->
        Setup.pip_install host p = Setup.PipRaises x ->
        fst res = Raise x
        /\ Setup.upto_raise host pkgs = pre ++ [p]
        /\ last (Setup.stdout (snd res)) []
           = Setup.package_box ++ lit " Installing " ++ p ++ lit "...").
Proof.
  intros res. unfold res. clear res. rewrite install_all_outcome.
  cbn [fst snd Setup.stdout Setup.calls]. split; [|split].
  - rewrite pip_attempts_app, pip_attempts_installs. reflexivity.
  - intros H. destruct (no_raise host pkgs H) as [-> ->].
    split; reflexivity.
  - intros pre p post x -> Hpre Hp.
    assert (Setup.first_raise host (pre ++ p :: post) = Some x
            /\ Setup.upto_raise host (pre ++ p :: post) = pre ++ [p]) as [-> U].
    { clear failed st. induction pre as [|q pre IH];
        cbn [app Setup.first_raise Setup.upto_raise existsb] in *.
      - unfold Setup.raises. rewrite Hp. split; reflexivity.
      - apply orb_false_iff in Hpre. destruct Hpre as [Hq Hpre].
        destruct (IH Hpre) as [-> ->]. rewrite Hq.
        unfold Setup.raises in Hq.
        destruct (Setup.pip_install host q); try discriminate;
          split; reflexivity. }
    rewrite U. split; [reflexivity|]. split; [reflexivity|].
    rewrite flat_map_app. cbn [flat_map]. unfold Setup.install_lines at 2.
    rewrite Hp, app_nil_r. rewrite app_assoc. apply last_last.
Qed.

(** * Post-processing under the chat template *)

Lemma startswith_Occurs s p m w :
  startswith s p = true -> p = m ++ w -> Occurs m s.
Proof.
  intros H ->. apply startswith_spec in H. destruct H as [v ->].
  exists [], (w ++ v). simpl. rewrite <- app_assoc. reflexivity.
Qed.

(** X18. For a model that takes the chat template, post-processing is
    idempotent whatever was generated: the formatted prompt opens with the
    marker [<|user|>], which no result of post-processing holds, so a
    second pass finds neither the prompt nor a marker to remove. *)
Theorem clean_response_idempotent_chat (g name prompt : pystr) :
  contains (lit "DialoGPT") name = false ->
  contains (lit "TinyLlama") name || contains (lit "chat") (lower name) = true ->
  let fp := _format_prompt name prompt in
  _clean_response (_clean_response g fp) fp = _clean_response g fp.
Proof.
  intros Hd Hc fp. apply clean_response_again.
  apply not_true_is_false. intros E.
  assert (Occurs (lit "<|user|>") (_clean_response g fp)) as Hocc.
  { apply (@startswith_Occurs _ _ (lit "<|user|>")
             ([nl] ++ prompt ++ [nl] ++ lit "<|assistant|>" ++ [nl]) E).
    unfold fp, _format_prompt. rewrite Hd, Hc. reflexivity. }
  apply contains_spec in Hocc.
  rewrite clean_response_clean in Hocc; [discriminate|].
  right. right. right. left. reflexivity.
Qed.

(** X18 on TinyLlama, the model echoing the prompt twice. *)
Lemma clean_response_idempotent_chat_witness :
  let fp := _format_prompt (lit "TinyLlama/TinyLlama-1.1B-Chat-v1.0")
              (lit "Hi") in
  let g := fp ++ fp ++ lit "Hello!" in
  _clean_response (_clean_response g fp) fp = _clean_response g fp.
Proof.
  exact (@clean_response_idempotent_chat
           (_format_prompt (lit "TinyLlama/TinyLlama-1.1B-Chat-v1.0")
              (lit "Hi")
            ++ _format_prompt (lit "TinyLlama/TinyLlama-1.1B-Chat-v1.0")
                 (lit "Hi")
            ++ lit "Hello!")
           (lit "TinyLlama/TinyLlama-1.1B-Chat-v1.0") (lit "Hi")
           eq_refl eq_refl).
Defined.
